(** * Nitro 5 Cooler Boost: the embedded-controller register protocol

    A shallow embedding of [src/nitro_boost/core.py] (class [NitroBoost])
    and the properties of its fan-control operations.

    The Python methods read and write single bytes of the embedded
    controller through one of two device nodes.  They are embedded as
    computations in a small state-and-exception monad [Py] over a
    [Machine]: the two attributes of the controller object, the operating
    system as the code can observe it, and the log of the system calls
    made so far. *)

From Stdlib Require Import ZArith Lia Bool.
From Stdlib.Strings Require Import Byte.
From Stdlib Require Import DecimalString.
From stdpp Require Import base list strings.

Local Open Scope Z_scope.

(** ** Register map (module constants of core.py) *)

Definition EC_WRITE_ENABLE : Z := 0x03.
Definition EC_GPU_FAN_MODE : Z := 0x21.
Definition EC_CPU_FAN_MODE : Z := 0x22.
Definition EC_CPU_FAN_PCT : Z := 0x37.
Definition EC_GPU_FAN_PCT : Z := 0x3A.
Definition EC_CPU_FAN_RPM_LO : Z := 0x13.
Definition EC_CPU_FAN_RPM_HI : Z := 0x14.
Definition EC_GPU_FAN_RPM_LO : Z := 0x15.
Definition EC_GPU_FAN_RPM_HI : Z := 0x16.

(** The two candidate interface paths, [/sys/kernel/debug/ec/ec0/io] and
    [/dev/ec]. *)
Inductive Path : Type :=
| EC_SYS_PATH
| EC_ACPI_PATH.

(** ** The operating system as the controller observes it *)

(** What [subprocess.run(["modprobe", "ec_sys", "write_support=1"], ...)]
    does: it completes with a return code (and may have made the debugfs
    node appear), or raises one of the two exceptions [_ensure_ec_sys]
    catches. *)
Inductive ModprobeRun : Type :=
| Completed (returncode : Z) (loads_ec_sys : bool)
| TimeoutExpired
| FileNotFoundError.

(** [ec_space] is the register space of the embedded controller, which
    both nodes expose byte by byte.  [io_faults] is the schedule of I/O
    errors: every [open] of a node consumes its head, and [true] means
    that this access raises an [OSError] (permission denied, node gone,
    I/O error); an exhausted schedule means no more errors. *)
Record World : Type := mkWorld {
  euid : Z;
  sys_present : bool;
  acpi_present : bool;
  ec_space : list byte;
  io_faults : list bool;
  modprobe : ModprobeRun
}.

(** The attributes set by [NitroBoost.__init__]. *)
Record NitroBoost : Type := mkNitroBoost {
  _ec_path : option Path;
  _use_ec_sys : bool
}.

Definition __init__ : NitroBoost :=
  {| _ec_path := None; _use_ec_sys := false |}.

(** System calls and calls of the discovery routine, in the order made. *)
Inductive Event : Type :=
| EvGeteuid
| EvModprobe
| EvDetect
| EvExists (p : Path)
| EvOpenRead (p : Path) (offset : Z)
| EvOpenWrite (p : Path) (offset value : Z).

Record Machine : Type := mkMachine {
  self : NitroBoost;
  world : World;
  trace : list Event
}.

(** ** The monad of Python computations *)

(** The exceptions that are not caught where they arise. *)
Inductive PyExn : Type :=
| ValueError
| AttributeError
| TypeError.

Inductive Outcome (A : Type) : Type :=
| Returns (a : A)
| Raises (e : PyExn).
Arguments Returns {A} a.
Arguments Raises {A} e.

Definition Py (A : Type) : Type := Machine -> Outcome A * Machine.

Definition ret {A} (a : A) : Py A := fun m => (Returns a, m).

Definition raise {A} (e : PyExn) : Py A := fun m => (Raises e, m).

Definition bind {A B} (c : Py A) (k : A -> Py B) : Py B :=
  fun m =>
    match c m with
    | (Returns a, m') => k a m'
    | (Raises e, m') => (Raises e, m')
    end.

Declare Scope py_scope.
Delimit Scope py_scope with py.
Notation "x <- c ;; k" := (bind c (fun x => k))
  (at level 100, c at next level, right associativity) : py_scope.
Notation "c ;; k" := (bind c (fun _ => k))
  (at level 100, right associativity) : py_scope.
Local Open Scope py_scope.

Definition emit (e : Event) : Py unit :=
  fun m => (Returns tt, {| self := self m; world := world m; trace := trace m ++ [e] |}).

Definition get_self : Py NitroBoost := fun m => (Returns (self m), m).

Definition set_self (s : NitroBoost) : Py unit :=
  fun m => (Returns tt, {| self := s; world := world m; trace := trace m |}).

Definition get_world : Py World := fun m => (Returns (world m), m).

Definition set_world (w : World) : Py unit :=
  fun m => (Returns tt, {| self := self m; world := w; trace := trace m |}).

(** ** Primitive system calls *)

Definition present (p : Path) (w : World) : bool :=
  match p with
  | EC_SYS_PATH => sys_present w
  | EC_ACPI_PATH => acpi_present w
  end.

(** [path.exists()] *)
Definition exists_ (p : Path) : Py bool :=
  emit (EvExists p) ;;
  w <- get_world ;;
  ret (present p w).

(** [os.geteuid()] *)
Definition geteuid : Py Z :=
  emit EvGeteuid ;;
  w <- get_world ;;
  ret (euid w).

(** Consumes the head of the fault schedule. *)
Definition next_fault : Py bool :=
  w <- get_world ;;
  match io_faults w with
  | [] => ret false
  | f :: rest =>
      set_world {| euid := euid w; sys_present := sys_present w;
                   acpi_present := acpi_present w; ec_space := ec_space w;
                   io_faults := rest; modprobe := modprobe w |} ;;
      ret f
  end.

(** [bytes([value])]: a [ValueError] unless [0 <= value <= 255]. *)
Definition bytes1 (value : Z) : option byte :=
  if (0 <=? value) && (value <=? 255) then Byte.of_N (Z.to_N value) else None.

(** [data[0]] of a byte string: an [int] in 0..255. *)
Definition byte_to_int (b : byte) : Z := Z.of_N (Byte.to_N b).

(** A positioned one-byte write into a file of bytes: inside the file the
    byte is replaced, past its end the gap is filled with zero bytes. *)
Definition write_at (i : nat) (b : byte) (l : list byte) : list byte :=
  if decide (i < length l)%nat then <[i := b]> l
  else l ++ replicate (i - length l) x00 ++ [b].

Definition poke (i : nat) (b : byte) : Py unit :=
  w <- get_world ;;
  set_world {| euid := euid w; sys_present := sys_present w;
               acpi_present := acpi_present w;
               ec_space := write_at i b (ec_space w);
               io_faults := io_faults w; modprobe := modprobe w |}.

(** [subprocess.run(["modprobe", ...])]; the result is what the [try]
    block of [_ensure_ec_sys] sees: the return code, or [None] for one of
    the two caught exceptions. *)
Definition run_modprobe : Py (option Z) :=
  emit EvModprobe ;;
  w <- get_world ;;
  match modprobe w with
  | Completed rc loads =>
      set_world {| euid := euid w; sys_present := sys_present w || loads;
                   acpi_present := acpi_present w; ec_space := ec_space w;
                   io_faults := io_faults w; modprobe := modprobe w |} ;;
      ret (Some rc)
  | TimeoutExpired => ret None
  | FileNotFoundError => ret None
  end.

(** ** class NitroBoost *)

Definition _detect_ec_interface : Py bool :=
  emit EvDetect ;;
  e1 <- exists_ EC_SYS_PATH ;;
  if e1 then
    set_self {| _ec_path := Some EC_SYS_PATH; _use_ec_sys := true |} ;;
    ret true
  else
    e2 <- exists_ EC_ACPI_PATH ;;
    if e2 then
      set_self {| _ec_path := Some EC_ACPI_PATH; _use_ec_sys := false |} ;;
      ret true
    else ret false.

Definition _ensure_ec_sys : Py bool :=
  result <- run_modprobe ;;
  match result with
  | Some returncode =>
      if returncode =? 0 then
        e <- exists_ EC_SYS_PATH ;;
        if e then ret true else ret false
      else ret false
  | None => ret false
  end.

(** The body of [with open(self._ec_path, "r+b") as f] inside its [try]:
    an [OSError] from [open] or [seek] is caught and gives [False]; the
    [ValueError] of [bytes([value])] is not caught. *)
Definition open_seek_write (path : Path) (offset value : Z) : Py bool :=
  emit (EvOpenWrite path offset value) ;;
  fault <- next_fault ;;
  if fault then ret false
  else if offset <? 0 then ret false
  else
    match bytes1 value with
    | None => raise ValueError
    | Some b => poke (Z.to_nat offset) b ;; ret true
    end.

Definition _write_ec_sys (offset value : Z) : Py bool :=
  s <- get_self ;;
  match _ec_path s with
  | None => ret false
  | Some path =>
      e <- exists_ path ;;
      if negb e then ret false
      else open_seek_write path offset value
  end.

Definition _write_acpi_ec (offset value : Z) : Py bool :=
  s <- get_self ;;
  match _ec_path s with
  | None => ret false
  | Some path =>
      e <- exists_ path ;;
      if negb e then ret false
      else open_seek_write path offset value
  end.

(** [self._ec_path.exists()] on the attribute as it is now. *)
Definition ec_path_exists : Py bool :=
  s <- get_self ;;
  match _ec_path s with
  | None => raise AttributeError
  | Some path => exists_ path
  end.

(** [if not self._ec_path: if not self._detect_ec_interface(): return];
    the result is [false] when the caller returns at this point. *)
Definition resolve_ec_path : Py bool :=
  s <- get_self ;;
  match _ec_path s with
  | None => _detect_ec_interface
  | Some _ => ret true
  end.

Definition _write_ec (offset value : Z) : Py bool :=
  resolved <- resolve_ec_path ;;
  if negb resolved then ret false
  else
    e <- ec_path_exists ;;
    if negb e then ret false
    else
      s <- get_self ;;
      if _use_ec_sys s then _write_ec_sys offset value
      else _write_acpi_ec offset value.

(** The body of [with open(self._ec_path, "rb") as f] inside its [try]:
    an [OSError] from [open] or from a [seek] to a negative offset is
    caught and gives [None], and so does an empty [f.read(1)], past the
    end of the register space. *)
Definition open_seek_read (path : Path) (offset : Z) : Py (option Z) :=
  emit (EvOpenRead path offset) ;;
  fault <- next_fault ;;
  if fault then ret None
  else if offset <? 0 then ret None
  else
    w <- get_world ;;
    ret (byte_to_int <$> (ec_space w !! Z.to_nat offset)).

Definition _read_ec (offset : Z) : Py (option Z) :=
  resolved <- resolve_ec_path ;;
  if negb resolved then ret None
  else
    e <- ec_path_exists ;;
    if negb e then ret None
    else
      s <- get_self ;;
      match _ec_path s with
      | None => raise TypeError
      | Some path => open_seek_read path offset
      end.

Definition _enable_write : Py bool :=
  _write_ec EC_WRITE_ENABLE 0x11.

Definition is_available : Py (bool * string) :=
  uid <- geteuid ;;
  if negb (uid =? 0) then ret (false, "Requer privilégios de root (sudo)"%string)
  else
    ensured <- _ensure_ec_sys ;;
    (if ensured then _detect_ec_interface ;; ret tt else ret tt) ;;
    detected <- _detect_ec_interface ;;
    if negb detected then
      ret (false, "Interface EC não encontrada.

Configure o kernel:
1. Edite /etc/default/grub
2. Adicione ec_sys.write_support=1 em GRUB_CMDLINE_LINUX_DEFAULT
3. Execute: sudo update-grub
4. Reinicie o sistema"%string)
    else ret (true, "OK"%string).

Definition set_cooler_boost_individual (cpu_max gpu_max : bool) : Py bool :=
  enabled <- _enable_write ;;
  if negb enabled then ret false
  else
    cpu_mode <- _read_ec EC_CPU_FAN_MODE ;;
    gpu_mode <- _read_ec EC_GPU_FAN_MODE ;;
    let new_cpu := if cpu_max then 0x08 else 0x04 in
    let new_gpu := if gpu_max then 0x20 else 0x10 in
    _write_ec EC_CPU_FAN_MODE new_cpu ;;
    _write_ec EC_GPU_FAN_MODE new_gpu ;;
    ret true.

Definition set_cooler_boost (enabled : bool) : Py bool :=
  set_cooler_boost_individual enabled enabled.

Definition set_custom_fans (cpu_percent gpu_percent : Z) : Py bool :=
  if negb ((0 <=? cpu_percent) && (cpu_percent <=? 100))
     || negb ((0 <=? gpu_percent) && (gpu_percent <=? 100))
  then ret false
  else
    enabled <- _enable_write ;;
    if negb enabled then ret false
    else
      _write_ec EC_GPU_FAN_MODE 0x30 ;;
      _write_ec EC_CPU_FAN_MODE 0x0C ;;
      _write_ec EC_CPU_FAN_PCT cpu_percent ;;
      _write_ec EC_GPU_FAN_PCT gpu_percent ;;
      ret true.

Definition set_custom_fan (percent : Z) : Py bool :=
  set_custom_fans percent percent.

Definition get_cooler_boost_status : Py (option bool) :=
  cpu_mode <- _read_ec EC_CPU_FAN_MODE ;;
  gpu_mode <- _read_ec EC_GPU_FAN_MODE ;;
  match cpu_mode, gpu_mode with
  | Some c, Some g => ret (Some ((c =? 0x08) && (g =? 0x20)))
  | _, _ => ret None
  end.

Definition _read_fan_rpm_ec (lo_reg : Z) (hi_reg : option Z) : Py (option Z) :=
  lo <- _read_ec lo_reg ;;
  match lo with
  | None => ret None
  | Some lo =>
      val <- match hi_reg with
             | Some hi_reg =>
                 hi <- _read_ec hi_reg ;;
                 ret (match hi with
                      | Some hi => Z.lor (Z.shiftl hi 8) lo
                      | None => lo
                      end)
             | None => ret lo
             end ;;
      if (val =? 0) || (val >? 65000) then ret None else ret (Some val)
  end.

(** The dictionary returned by [get_fan_info]. *)
Record FanInfo : Type := mkFanInfo {
  mode : string;
  cpu_percent : option Z;
  gpu_percent : option Z;
  cpu_rpm : option Z;
  gpu_rpm : option Z;
  cooler_boost : option bool;
  cpu_cooler_boost : option bool;
  gpu_cooler_boost : option bool
}.

(** The [if]/[elif] chain that labels the pair of mode bytes. *)
Definition mode_label (cpu_mode gpu_mode : option Z) : string :=
  match cpu_mode, gpu_mode with
  | Some c, Some g =>
      if (c =? 0x08) && (g =? 0x20) then "max"%string
      else if (c =? 0x04) && (g =? 0x10) then "auto"%string
      else if (c =? 0x0C) && (g =? 0x30) then "custom"%string
      else "unknown"%string
  | _, _ => "unknown"%string
  end.

(** [rpm = int(pct * 55)] when [rpm is None and pct is not None]. *)
Definition rpm_or_estimate (rpm pct : option Z) : option Z :=
  match rpm, pct with
  | None, Some p => Some (p * 55)
  | _, _ => rpm
  end.

Definition get_fan_info : Py FanInfo :=
  cpu_mode <- _read_ec EC_CPU_FAN_MODE ;;
  gpu_mode <- _read_ec EC_GPU_FAN_MODE ;;
  cpu_pct <- _read_ec EC_CPU_FAN_PCT ;;
  gpu_pct <- _read_ec EC_GPU_FAN_PCT ;;
  let mode := mode_label cpu_mode gpu_mode in
  let cpu_cb := (fun c => c =? 0x08) <$> cpu_mode in
  let gpu_cb := (fun g => g =? 0x20) <$> gpu_mode in
  cpu_rpm <- _read_fan_rpm_ec EC_CPU_FAN_RPM_LO (Some EC_CPU_FAN_RPM_HI) ;;
  gpu_rpm <- _read_fan_rpm_ec EC_GPU_FAN_RPM_LO (Some EC_GPU_FAN_RPM_HI) ;;
  let cpu_rpm := rpm_or_estimate cpu_rpm cpu_pct in
  let gpu_rpm := rpm_or_estimate gpu_rpm gpu_pct in
  boost <- get_cooler_boost_status ;;
  ret {| mode := mode;
         cpu_percent := cpu_pct;
         gpu_percent := gpu_pct;
         cpu_rpm := cpu_rpm;
         gpu_rpm := gpu_rpm;
         cooler_boost := boost;
         cpu_cooler_boost := cpu_cb;
         gpu_cooler_boost := gpu_cb |}.

(** ** The desktop front end (gui.py): the handlers that drive the controller *)

Definition BG : string := "#0d0d12".
Definition ACCENT : string := "#00d4aa".
Definition ACCENT_DIM : string := "#00a884".
Definition DANGER : string := "#ff4757".
Definition TEXT : string := "#e8e8ed".
Definition TEXT_MUTED : string := "#8b8b9a".
Definition BORDER : string := "#2a2a35".

Inductive Button : Type :=
| auto_btn
| cpu_boost_btn
| gpu_boost_btn.

(** The calls the handlers make on the toolkit, with their arguments. *)
Inductive TkCall : Type :=
| badge_config (text fg : string)
| button_config (b : Button) (text bg activebackground fg : string)
| button_disabled (b : Button)
| showerror (title message : string).

(** What the handlers use of a [Slider]. *)
Record Slider : Type := mkSlider {
  from_ : Z;
  to : Z;
  _value : Z
}.

Definition Slider_get (s : Slider) : Z := _value s.

(** The attributes of [NitroBoostApp] the handlers use; [boost] is the
    controller object together with the system it runs on, [tk] the log
    of the toolkit calls made. *)
Record NitroBoostApp : Type := mkApp {
  boost : Machine;
  _cpu_boost : bool;
  _gpu_boost : bool;
  cpu_slider : Slider;
  gpu_slider : Slider;
  tk : list TkCall
}.

Definition Gui (A : Type) : Type := NitroBoostApp -> Outcome A * NitroBoostApp.

Definition gret {A} (a : A) : Gui A := fun app => (Returns a, app).

Definition gbind {A B} (c : Gui A) (k : A -> Gui B) : Gui B :=
  fun app =>
    match c app with
    | (Returns a, app') => k a app'
    | (Raises e, app') => (Raises e, app')
    end.

Declare Scope gui_scope.
Delimit Scope gui_scope with gui.
Notation "x <- c ;; k" := (gbind c (fun x => k))
  (at level 100, c at next level, right associativity) : gui_scope.
Notation "c ;; k" := (gbind c (fun _ => k))
  (at level 100, right associativity) : gui_scope.

(** A call on [self.boost]. *)
Definition on_boost {A} (c : Py A) : Gui A :=
  fun app =>
    let (r, m') := c (boost app) in
    (r, {| boost := m'; _cpu_boost := _cpu_boost app;
           _gpu_boost := _gpu_boost app; cpu_slider := cpu_slider app;
           gpu_slider := gpu_slider app; tk := tk app |}).

Definition tk_call (u : TkCall) : Gui unit :=
  fun app =>
    (Returns tt, {| boost := boost app; _cpu_boost := _cpu_boost app;
                    _gpu_boost := _gpu_boost app; cpu_slider := cpu_slider app;
                    gpu_slider := gpu_slider app; tk := tk app ++ [u] |}).

Definition get_app : Gui NitroBoostApp := fun app => (Returns app, app).

Definition set_cpu_boost (b : bool) : Gui unit :=
  fun app =>
    (Returns tt, {| boost := boost app; _cpu_boost := b;
                    _gpu_boost := _gpu_boost app; cpu_slider := cpu_slider app;
                    gpu_slider := gpu_slider app; tk := tk app |}).

Definition set_gpu_boost (b : bool) : Gui unit :=
  fun app =>
    (Returns tt, {| boost := boost app; _cpu_boost := _cpu_boost app;
                    _gpu_boost := b; cpu_slider := cpu_slider app;
                    gpu_slider := gpu_slider app; tk := tk app |}).

(** [str(n)] of an [int]. *)
Definition str (n : Z) : string := NilZero.string_of_int (Z.to_int n).

(** [x or y] on strings. *)
Definition str_or (x y : string) : string :=
  match x with
  | EmptyString => y
  | _ => x
  end.

Definition _update_boost_buttons : Gui unit :=
  (app <- get_app ;;
   (if _cpu_boost app
    then tk_call (button_config cpu_boost_btn "CPU: ON" ACCENT ACCENT_DIM BG)
    else tk_call (button_config cpu_boost_btn "CPU: OFF" BORDER BORDER TEXT)) ;;
   if _gpu_boost app
   then tk_call (button_config gpu_boost_btn "GPU: ON" ACCENT ACCENT_DIM BG)
   else tk_call (button_config gpu_boost_btn "GPU: OFF" BORDER BORDER TEXT))%gui.

(** The badge of the two toggles: the list comprehension over the
    domains that are on, joined, with ["OFF"] for none. *)
Definition boost_badge : Gui unit :=
  (app <- get_app ;;
   let parts :=
     omap id [if _cpu_boost app then Some "CPU"%string else None;
              if _gpu_boost app then Some "GPU"%string else None] in
   tk_call (badge_config
              ("Cooler Boost: " ++ str_or (String.concat ", " parts) "OFF")
              (match parts with [] => TEXT_MUTED | _ => ACCENT end)))%gui.

Definition _toggle_cpu_boost : Gui unit :=
  (app <- get_app ;;
   set_cpu_boost (negb (_cpu_boost app)) ;;
   app <- get_app ;;
   ok <- on_boost (set_cooler_boost_individual (_cpu_boost app) (_gpu_boost app)) ;;
   if ok then
     _update_boost_buttons ;;
     boost_badge
   else
     app <- get_app ;;
     set_cpu_boost (negb (_cpu_boost app)) ;;
     tk_call (showerror "Nitro Boost" "Falha ao alterar Cooler Boost."))%gui.

Definition _toggle_gpu_boost : Gui unit :=
  (app <- get_app ;;
   set_gpu_boost (negb (_gpu_boost app)) ;;
   app <- get_app ;;
   ok <- on_boost (set_cooler_boost_individual (_cpu_boost app) (_gpu_boost app)) ;;
   if ok then
     _update_boost_buttons ;;
     boost_badge
   else
     app <- get_app ;;
     set_gpu_boost (negb (_gpu_boost app)) ;;
     tk_call (showerror "Nitro Boost" "Falha ao alterar Cooler Boost."))%gui.

Definition _set_auto : Gui unit :=
  (ok <- on_boost (set_cooler_boost false) ;;
   if ok then
     set_cpu_boost false ;;
     set_gpu_boost false ;;
     _update_boost_buttons ;;
     tk_call (badge_config "Automático" ACCENT)
   else
     tk_call (showerror "Nitro Boost" "Falha ao definir modo automático."))%gui.

Definition _apply_fans : Gui unit :=
  (app <- get_app ;;
   let cpu_pct := Slider_get (cpu_slider app) in
   let gpu_pct := Slider_get (gpu_slider app) in
   ok <- on_boost (set_custom_fans cpu_pct gpu_pct) ;;
   if ok then
     set_cpu_boost false ;;
     set_gpu_boost false ;;
     _update_boost_buttons ;;
     tk_call (badge_config
                ("CPU " ++ str cpu_pct ++ "% • GPU " ++ str gpu_pct ++ "%")
                ACCENT)
   else
     tk_call (showerror "Nitro Boost"
                "Falha ao definir velocidade. Tente modo Automático."))%gui.

Definition _check_availability : Gui unit :=
  (r <- on_boost is_available ;;
   let '(ok, msg) := r in
   if ok then
     tk_call (badge_config "Pronto" ACCENT) ;;
     fan <- on_boost get_fan_info ;;
     set_cpu_boost (default false (cpu_cooler_boost fan)) ;;
     set_gpu_boost (default false (gpu_cooler_boost fan)) ;;
     _update_boost_buttons
   else
     tk_call (badge_config "Erro" DANGER) ;;
     tk_call (button_disabled auto_btn) ;;
     tk_call (button_disabled cpu_boost_btn) ;;
     tk_call (button_disabled gpu_boost_btn) ;;
     tk_call (showerror "Nitro Boost" msg))%gui.

(** ** Vocabulary of the properties *)

(** Machine [m] with [e] appended to its log, nothing else changed. *)
Definition logged (e : list Event) (m : Machine) : Machine :=
  {| self := self m; world := world m; trace := trace m ++ e |}.

(** The store of the round-trip property: no I/O error is scheduled, and
    the interface resolves, that is, the cached node is there or, with
    nothing cached yet, one of the two candidates is.  Then every write
    succeeds and every read returns the byte last written. *)
Definition usable (m : Machine) : Prop :=
  io_faults (world m) = [] /\
  match _ec_path (self m) with
  | Some p => present p (world m) = true
  | None => sys_present (world m) || acpi_present (world m) = true
  end.

(** What the direct RPM read of one fan domain amounts to, in terms of
    the register reads it makes from machine [m]: the low byte first; if
    that is unreadable the result is absent and the high byte is not
    read; otherwise the high byte is read and, when readable, combined as
    [(hi << 8) | lo]; a value of 0 or above 65000 is dropped. *)
Definition direct_rpm (lo_reg hi_reg : Z) (m : Machine)
    (r : option Z) (m' : Machine) : Prop :=
  exists lo m1,
    _read_ec lo_reg m = (Returns lo, m1) /\
    match lo with
    | None => r = None /\ m' = m1
    | Some l =>
        exists hi,
          _read_ec hi_reg m1 = (Returns hi, m') /\
          let val := match hi with
                     | Some h => Z.lor (Z.shiftl h 8) l
                     | None => l
                     end in
          r = if decide (val = 0 \/ val > 65000) then None else Some val
    end.

(** ** Sample machines *)

Definition zeros (n : nat) : list byte := replicate n x00.

Definition quiet_world (sys acpi : bool) (regs : list byte) : World :=
  {| euid := 0; sys_present := sys; acpi_present := acpi; ec_space := regs;
     io_faults := []; modprobe := Completed 0 false |}.

Definition boot (w : World) : Machine :=
  {| self := __init__; world := w; trace := [] |}.

(** A register space of 256 zero bytes with the given registers set. *)
Definition registers (kv : list (Z * byte)) : list byte :=
  foldl (fun l '(k, v) => write_at (Z.to_nat k) v l) (zeros 256) kv.

(** A controller that resolved the debugfs node earlier; the node has
    since gone while [/dev/ec] is there. *)
Definition stale_machine : Machine :=
  {| self := {| _ec_path := Some EC_SYS_PATH; _use_ec_sys := true |};
     world := quiet_world false true (zeros 256);
     trace := [] |}.

(** A fresh controller on a store whose enable write and two mode reads
    go through and whose two mode writes then fail. *)
Definition failing_mode_writes : Machine :=
  boot {| euid := 0; sys_present := true; acpi_present := false;
          ec_space := zeros 256;
          io_faults := [false; false; false; true; true];
          modprobe := Completed 0 false |}.

(** ** Vocabulary of the further properties *)

(** The handle names node [p] and the node is there. *)
Definition settled (p : Path) (m : Machine) : Prop :=
  _ec_path (self m) = Some p /\ present p (world m) = true.

(** The register writes attempted in a stretch of the log, in order. *)
Definition write_attempts (evs : list Event) : list (Path * Z * Z) :=
  flat_map (fun e => match e with
                     | EvOpenWrite p offset value => [(p, offset, value)]
                     | _ => []
                     end) evs.



(** From [m] to [m'] the register space is the same and the log has
    gained no write attempt. *)
Definition reads_only (m m' : Machine) : Prop :=
  ec_space (world m') = ec_space (world m) /\
  exists evs, trace m' = trace m ++ evs /\ write_attempts evs = [].

(** The register at [offset] of a register space, as [_read_ec] returns
    it when nothing goes wrong. *)
Definition reg (l : list byte) (offset : Z) : option Z :=
  byte_to_int <$> l !! Z.to_nat offset.

(** The direct RPM of a domain, from the register space alone. *)
Definition direct_of (l : list byte) (lo_reg hi_reg : Z) : option Z :=
  match reg l lo_reg with
  | None => None
  | Some lo =>
      let val := match reg l hi_reg with
                 | Some hi => Z.lor (Z.shiftl hi 8) lo
                 | None => lo
                 end in
      if (val =? 0) || (val >? 65000) then None else Some val
  end.

(** The boost status, from the register space alone. *)
Definition status_of (l : list byte) : option bool :=
  match reg l EC_CPU_FAN_MODE, reg l EC_GPU_FAN_MODE with
  | Some c, Some g => Some ((c =? 0x08) && (g =? 0x20))
  | _, _ => None
  end.

(** The snapshot, from the register space alone. *)
Definition snapshot_of (l : list byte) : FanInfo :=
  {| mode := mode_label (reg l EC_CPU_FAN_MODE) (reg l EC_GPU_FAN_MODE);
     cpu_percent := reg l EC_CPU_FAN_PCT;
     gpu_percent := reg l EC_GPU_FAN_PCT;
     cpu_rpm := rpm_or_estimate
                  (direct_of l EC_CPU_FAN_RPM_LO EC_CPU_FAN_RPM_HI)
                  (reg l EC_CPU_FAN_PCT);
     gpu_rpm := rpm_or_estimate
                  (direct_of l EC_GPU_FAN_RPM_LO EC_GPU_FAN_RPM_HI)
                  (reg l EC_GPU_FAN_PCT);
     cooler_boost := status_of l;
     cpu_cooler_boost := (fun c => c =? 0x08) <$> reg l EC_CPU_FAN_MODE;
     gpu_cooler_boost := (fun g => g =? 0x20) <$> reg l EC_GPU_FAN_MODE |}.

(** Whether the [modprobe] run of world [w] brings up the debugfs node. *)
Definition module_loads (w : World) : bool :=
  match modprobe w with
  | Completed _ loads => loads
  | _ => false
  end.





(** The handlers bound to the buttons, and the availability check made
    when the window opens. *)
Inductive Handler : Type :=
| ToggleCpuBoost
| ToggleGpuBoost
| SetAuto
| ApplyFans
| CheckAvailability.

Definition handler (h : Handler) : Gui unit :=
  match h with
  | ToggleCpuBoost => _toggle_cpu_boost
  | ToggleGpuBoost => _toggle_gpu_boost
  | SetAuto => _set_auto
  | ApplyFans => _apply_fans
  | CheckAvailability => _check_availability
  end.

Fixpoint clicks (hs : list Handler) : Gui unit :=
  match hs with
  | [] => gret tt
  | h :: hs => gbind (handler h) (fun _ => clicks hs)
  end.

(** The two flags of the front end say what the mode registers say. *)
Definition in_sync (app : NitroBoostApp) : Prop :=
  (_cpu_boost app = true <->
   reg (ec_space (world (boost app))) EC_CPU_FAN_MODE = Some 0x08) /\
  (_gpu_boost app = true <->
   reg (ec_space (world (boost app))) EC_GPU_FAN_MODE = Some 0x20).


(** The machine a computation leaves. *)
Definition after {A} (c : Py A) (m : Machine) : Machine := snd (c m).

(** A fresh controller, as root, on a system with the debugfs node, a
    register space of 256 zero bytes and no I/O error scheduled. *)
Definition fresh_machine : Machine :=
  boot (quiet_world true false (zeros 256)).

(** A register space of 20 bytes: the low byte of the CPU RPM is the last
    register that can be read. *)
Definition short_machine : Machine :=
  boot (quiet_world true false
          (write_at (Z.to_nat EC_CPU_FAN_RPM_LO) x2a (zeros 19))).

(** A system whose CPU fan reports 1200 = 0x04b0 RPM. *)
Definition spinning_machine : Machine :=
  boot (quiet_world true false
          (registers [(EC_CPU_FAN_RPM_LO, xb0); (EC_CPU_FAN_RPM_HI, x04)])).

(** The front end as it starts on [fresh_machine]. *)
Definition fresh_app : NitroBoostApp :=
  {| boost := fresh_machine;
     _cpu_boost := false;
     _gpu_boost := false;
     cpu_slider := {| from_ := 0; to := 100; _value := 50 |};
     gpu_slider := {| from_ := 0; to := 100; _value := 50 |};
     tk := [] |}.

(** ** Running a computation *)

(** Unfolds the monad and the primitive calls down to the branches on the
    machine's components. *)
Ltac py_unfold :=
  cbv [_enable_write _read_ec _write_ec resolve_ec_path ec_path_exists
       _detect_ec_interface open_seek_read open_seek_write _write_ec_sys
       _write_acpi_ec exists_ emit get_self set_self get_world set_world
       next_fault poke bind ret raise present negb
       self world trace _ec_path _use_ec_sys
       euid sys_present acpi_present ec_space io_faults modprobe] in *.

Ltac py_case :=
  match goal with
  | |- context [match ?x with _ => _ end] =>
      lazymatch x with
      | context [match _ with _ => _ end] => fail
      | _ => destruct x eqn:?
      end
  end.

Ltac py_cases := repeat (py_case; py_unfold).

Lemma _read_ec_returns (offset : Z) (m : Machine) :
  exists r m', _read_ec offset m = (Returns r, m').
Proof.
  destruct m as [[p u] [] tr]. py_unfold. py_cases; eauto.
Qed.

Lemma bind_returns {A B} (c : Py A) (k : A -> Py B) m a m' :
  c m = (Returns a, m') -> bind c k m = k a m'.
Proof. intros H. unfold bind. now rewrite H. Qed.

(** Continues past a call whose run is known. *)
Ltac run H := rewrite (bind_returns _ _ _ _ _ H).

Lemma percents_accepted (cpu_percent gpu_percent : Z) :
  0 <= cpu_percent <= 100 -> 0 <= gpu_percent <= 100 ->
  negb ((0 <=? cpu_percent) && (cpu_percent <=? 100))
  || negb ((0 <=? gpu_percent) && (gpu_percent <=? 100)) = false.
Proof.
  intros Hc Hg.
  apply orb_false_iff; split; apply negb_false_iff, andb_true_iff; split;
    apply Z.leb_le; lia.
Qed.

Lemma bytes1_in_range (value : Z) :
  0 <= value <= 255 ->
  exists b, bytes1 value = Some b /\ byte_to_int b = value.
Proof.
  intros Hv. unfold bytes1, byte_to_int.
  replace ((0 <=? value) && (value <=? 255)) with true
    by (symmetry; apply andb_true_iff; split; apply Z.leb_le; lia).
  destruct (Byte.of_N (Z.to_N value)) as [b|] eqn:Hb.
  - exists b. split; [reflexivity|].
    apply Byte.to_of_N in Hb. rewrite Hb. lia.
  - apply Byte.of_N_None_iff in Hb. lia.
Qed.

Lemma byte_to_int_range (b : byte) : 0 <= byte_to_int b <= 255.
Proof.
  unfold byte_to_int. pose proof (Byte.to_N_bounded b). lia.
Qed.

Lemma _read_ec_range (offset : Z) (m : Machine) v m' :
  _read_ec offset m = (Returns (Some v), m') -> 0 <= v <= 255.
Proof.
  destruct m as [[p u] [] tr]. py_unfold. py_cases; intros H; try discriminate.
  all: inversion H as [[Hv Hm]];
    match type of Hv with
    | context [?l !! ?i] => destruct (l !! i); [|discriminate]
    end;
    inversion Hv; apply byte_to_int_range.
Qed.

Lemma _write_ec_returns (offset value : Z) (m : Machine) :
  0 <= value <= 255 ->
  exists ok m', _write_ec offset value m = (Returns ok, m').
Proof.
  intros Hv. destruct (bytes1_in_range value Hv) as (b & Hb & _).
  destruct m as [[p u] [] tr]. py_unfold. rewrite Hb. py_cases; eauto.
Qed.

Lemma get_cooler_boost_status_returns (m : Machine) :
  exists r m', get_cooler_boost_status m = (Returns r, m').
Proof.
  unfold get_cooler_boost_status.
  destruct (_read_ec_returns EC_CPU_FAN_MODE m) as (c & m1 & H1).
  destruct (_read_ec_returns EC_GPU_FAN_MODE m1) as (g & m2 & H2).
  run H1; run H2.
  destruct c, g; unfold ret; eauto.
Qed.

Lemma _read_fan_rpm_ec_returns (lo_reg : Z) (hi_reg : option Z) (m : Machine) :
  exists r m', _read_fan_rpm_ec lo_reg hi_reg m = (Returns r, m').
Proof.
  unfold _read_fan_rpm_ec.
  destruct (_read_ec_returns lo_reg m) as ([lo|] & m1 & H1);
    run H1; [|unfold ret; eauto].
  destruct hi_reg as [hi_reg|].
  - destruct (_read_ec_returns hi_reg m1) as (hi & m2 & H2).
    rewrite (bind_returns _ _ _ _ _ (bind_returns _ _ _ _ _ H2)).
    unfold ret. destruct (_ || _); eauto.
  - unfold bind, ret. destruct (_ || _); eauto.
Qed.

(** ** The write gate decides the result *)

(** C1: [set_cooler_boost_individual], and [set_custom_fans] on percents
    in range, return exactly what the enable write of 0x11 to offset 0x03
    returned, whatever happens to the register writes that follow; when
    the enable write fails they stop there, leaving the machine (register
    space, handle and log of accesses) as the enable write left it. *)
Theorem gate_decides_result
    (cpu_max gpu_max : bool) (cpu_percent gpu_percent : Z) (m : Machine) :
  0 <= cpu_percent <= 100 -> 0 <= gpu_percent <= 100 ->
  exists ok m0 m1 m2,
    _write_ec 0x03 0x11 m = (Returns ok, m0) /\
    set_cooler_boost_individual cpu_max gpu_max m = (Returns ok, m1) /\
    set_custom_fans cpu_percent gpu_percent m = (Returns ok, m2) /\
    if ok then True else m1 = m0 /\ m2 = m0.
Proof.
  intros Hc Hg.
  destruct (_write_ec_returns 0x03 0x11 m ltac:(lia)) as (ok & m0 & H0).
  exists ok, m0.
  unfold set_cooler_boost_individual, set_custom_fans, _enable_write,
    EC_WRITE_ENABLE.
  rewrite (percents_accepted _ _ Hc Hg).
  rewrite !(bind_returns _ _ _ _ _ H0).
  destruct ok; cbn [negb]; [|unfold ret; eauto 10].
  destruct (_read_ec_returns EC_CPU_FAN_MODE m0) as (c & ma & Ha).
  destruct (_read_ec_returns EC_GPU_FAN_MODE ma) as (g & mb & Hb).
  destruct (_write_ec_returns EC_CPU_FAN_MODE (if cpu_max then 0x08 else 0x04)
              mb ltac:(destruct cpu_max; lia)) as (w1 & mc & Hw1).
  destruct (_write_ec_returns EC_GPU_FAN_MODE (if gpu_max then 0x20 else 0x10)
              mc ltac:(destruct gpu_max; lia)) as (w2 & m1 & Hw2).
  destruct (_write_ec_returns EC_GPU_FAN_MODE 0x30 m0 ltac:(lia))
    as (v1 & md & Hv1).
  destruct (_write_ec_returns EC_CPU_FAN_MODE 0x0C md ltac:(lia))
    as (v2 & me & Hv2).
  destruct (_write_ec_returns EC_CPU_FAN_PCT cpu_percent me ltac:(lia))
    as (v3 & mf & Hv3).
  destruct (_write_ec_returns EC_GPU_FAN_PCT gpu_percent mf ltac:(lia))
    as (v4 & m2 & Hv4).
  exists m1, m2.
  run Ha; run Hb.
  cbv zeta.
  run Hw1; run Hw2.
  run Hv1; run Hv2.
  run Hv3; run Hv4.
  unfold ret. auto.
Qed.

(** C2: with a percent outside [0,100], [set_custom_fans] returns [False]
    and leaves the machine as it found it: no enable write, no mode or
    percent write, no access of any kind, the register space unchanged. *)
Theorem set_custom_fans_rejects_out_of_range
    (cpu_percent gpu_percent : Z) (m : Machine) :
  ~ (0 <= cpu_percent <= 100) \/ ~ (0 <= gpu_percent <= 100) ->
  set_custom_fans cpu_percent gpu_percent m = (Returns false, m).
Proof.
  intros Hout. unfold set_custom_fans.
  destruct (0 <=? cpu_percent) eqn:E1, (cpu_percent <=? 100) eqn:E2,
    (0 <=? gpu_percent) eqn:E3, (gpu_percent <=? 100) eqn:E4;
    try reflexivity.
  apply Z.leb_le in E1, E2, E3, E4. lia.
Qed.

(** ** Reading the status back *)

(** C3: [get_cooler_boost_status] makes the two mode reads, CPU (0x22)
    first, then GPU (0x21); it returns [None] exactly when one of them
    fails, [True] exactly when they give 0x08 and 0x20, and [False] for
    every other pair of bytes read. *)
Theorem get_cooler_boost_status_spec (m : Machine) :
  exists c m1 g m2 r,
    _read_ec 0x22 m = (Returns c, m1) /\
    _read_ec 0x21 m1 = (Returns g, m2) /\
    get_cooler_boost_status m = (Returns r, m2) /\
    (r = None <-> c = None \/ g = None) /\
    (r = Some true <-> c = Some 0x08 /\ g = Some 0x20) /\
    (r = Some false <->
       exists a b, c = Some a /\ g = Some b /\ ~ (a = 0x08 /\ b = 0x20)).
Proof.
  destruct (_read_ec_returns 0x22 m) as (c & m1 & H1).
  destruct (_read_ec_returns 0x21 m1) as (g & m2 & H2).
  exists c, m1, g, m2.
  unfold get_cooler_boost_status, EC_CPU_FAN_MODE, EC_GPU_FAN_MODE.
  run H1; run H2.
  destruct c as [a|], g as [b|]; unfold ret.
  - exists (Some ((a =? 8) && (b =? 32))). repeat split; auto;
      try discriminate; try (intros [?|?]; discriminate).
    + destruct (Z.eqb_spec a 8), (Z.eqb_spec b 32); simpl; intros;
        (discriminate || congruence).
    + destruct (Z.eqb_spec a 8), (Z.eqb_spec b 32); simpl; intros;
        (discriminate || congruence).
    + intros [Ha Hb]. inversion Ha; inversion Hb. reflexivity.
    + intros Hr. exists a, b. repeat split.
      intros [-> ->]. discriminate.
    + intros (a' & b' & Ha & Hb & Hn). inversion Ha; inversion Hb; subst.
      destruct (Z.eqb_spec a' 8), (Z.eqb_spec b' 32); simpl;
        try reflexivity. tauto.
  - exists None. repeat split; auto; try discriminate.
    + intros [? ?]; discriminate.
    + intros (a' & b' & Ha & Hb & Hn). discriminate.
  - exists None. repeat split; auto; try discriminate.
    + intros [? ?]; discriminate.
    + intros (a' & b' & Ha & Hb & Hn). discriminate.
  - exists None. repeat split; auto; try discriminate.
    + intros [? ?]; discriminate.
    + intros (a' & b' & Ha & Hb & Hn). discriminate.
Qed.

(** The run of [get_fan_info], access by access: four mode and percent
    reads, the two RPM reads, and the aggregate boost status, which reads
    the two mode registers once more. *)
Lemma get_fan_info_run (m : Machine) :
  exists cm m1 gm m2 cp m3 gp m4 cr m5 gr m6 boost m7,
    _read_ec EC_CPU_FAN_MODE m = (Returns cm, m1) /\
    _read_ec EC_GPU_FAN_MODE m1 = (Returns gm, m2) /\
    _read_ec EC_CPU_FAN_PCT m2 = (Returns cp, m3) /\
    _read_ec EC_GPU_FAN_PCT m3 = (Returns gp, m4) /\
    _read_fan_rpm_ec EC_CPU_FAN_RPM_LO (Some EC_CPU_FAN_RPM_HI) m4
      = (Returns cr, m5) /\
    _read_fan_rpm_ec EC_GPU_FAN_RPM_LO (Some EC_GPU_FAN_RPM_HI) m5
      = (Returns gr, m6) /\
    get_cooler_boost_status m6 = (Returns boost, m7) /\
    get_fan_info m =
      (Returns {| mode := mode_label cm gm;
                  cpu_percent := cp;
                  gpu_percent := gp;
                  cpu_rpm := rpm_or_estimate cr cp;
                  gpu_rpm := rpm_or_estimate gr gp;
                  cooler_boost := boost;
                  cpu_cooler_boost := (fun c => c =? 0x08) <$> cm;
                  gpu_cooler_boost := (fun g => g =? 0x20) <$> gm |}, m7).
Proof.
  destruct (_read_ec_returns EC_CPU_FAN_MODE m) as (cm & m1 & H1).
  destruct (_read_ec_returns EC_GPU_FAN_MODE m1) as (gm & m2 & H2).
  destruct (_read_ec_returns EC_CPU_FAN_PCT m2) as (cp & m3 & H3).
  destruct (_read_ec_returns EC_GPU_FAN_PCT m3) as (gp & m4 & H4).
  destruct (_read_fan_rpm_ec_returns EC_CPU_FAN_RPM_LO
              (Some EC_CPU_FAN_RPM_HI) m4) as (cr & m5 & H5).
  destruct (_read_fan_rpm_ec_returns EC_GPU_FAN_RPM_LO
              (Some EC_GPU_FAN_RPM_HI) m5) as (gr & m6 & H6).
  destruct (get_cooler_boost_status_returns m6) as (boost & m7 & H7).
  exists cm, m1, gm, m2, cp, m3, gp, m4, cr, m5, gr, m6, boost, m7.
  repeat (split; [assumption|]).
  unfold get_fan_info.
  run H1; run H2; run H3; run H4.
  cbv zeta.
  run H5; run H6; run H7.
  reflexivity.
Qed.

Lemma mode_label_cases (c g : option Z) :
  (mode_label c g = "max"%string <-> c = Some 0x08 /\ g = Some 0x20) /\
  (mode_label c g = "auto"%string <-> c = Some 0x04 /\ g = Some 0x10) /\
  (mode_label c g = "custom"%string <-> c = Some 0x0C /\ g = Some 0x30) /\
  (mode_label c g = "unknown"%string <->
     ~ (c = Some 0x08 /\ g = Some 0x20) /\
     ~ (c = Some 0x04 /\ g = Some 0x10) /\
     ~ (c = Some 0x0C /\ g = Some 0x30)).
Proof.
  destruct c as [a|], g as [b|]; unfold mode_label;
    [destruct (Z.eqb_spec a 8), (Z.eqb_spec b 32), (Z.eqb_spec a 4),
       (Z.eqb_spec b 16), (Z.eqb_spec a 12), (Z.eqb_spec b 48);
     cbn [andb]; subst; try lia | | | ];
    (repeat split; intros;
     repeat match goal with H : _ /\ _ |- _ => destruct H end;
     try discriminate; try congruence; try tauto;
     try (intros [? ?]; congruence)).
Qed.

(** C4: the aggregate [mode] of [get_fan_info] is computed from its first
    two reads, CPU mode (0x22) and GPU mode (0x21): ["max"] exactly for
    0x08 and 0x20, ["auto"] exactly for 0x04 and 0x10, ["custom"] exactly
    for 0x0c and 0x30, and ["unknown"] in every other case, an unreadable
    register and a mixed pair such as 0x04 with 0x20 included. *)
Theorem get_fan_info_mode (m : Machine) :
  exists c m1 g m2 info m',
    _read_ec 0x22 m = (Returns c, m1) /\
    _read_ec 0x21 m1 = (Returns g, m2) /\
    get_fan_info m = (Returns info, m') /\
    (mode info = "max"%string <-> c = Some 0x08 /\ g = Some 0x20) /\
    (mode info = "auto"%string <-> c = Some 0x04 /\ g = Some 0x10) /\
    (mode info = "custom"%string <-> c = Some 0x0C /\ g = Some 0x30) /\
    (mode info = "unknown"%string <->
       ~ (c = Some 0x08 /\ g = Some 0x20) /\
       ~ (c = Some 0x04 /\ g = Some 0x10) /\
       ~ (c = Some 0x0C /\ g = Some 0x30)).
Proof.
  destruct (get_fan_info_run m)
    as (cm & m1 & gm & m2 & cp & m3 & gp & m4 & cr & m5 & gr & m6 & boost
        & m7 & H1 & H2 & _ & _ & _ & _ & _ & Hinfo).
  exists cm, m1, gm, m2. eexists. exists m7.
  repeat (split; [eassumption|]).
  cbn [mode]. apply mode_label_cases.
Qed.

(** ** A register store that works *)

Lemma write_at_lookup_eq (i : nat) (b : byte) (l : list byte) :
  write_at i b l !! i = Some b.
Proof.
  unfold write_at. case_decide as Hi.
  - now apply list_lookup_insert_eq.
  - rewrite lookup_app_r by lia.
    rewrite lookup_app_r by (rewrite length_replicate; lia).
    rewrite length_replicate.
    now replace (i - length l - (i - length l))%nat with 0%nat by lia.
Qed.

Lemma write_at_lookup_ne (i j : nat) (b x : byte) (l : list byte) :
  i <> j -> l !! j = Some x -> write_at i b l !! j = Some x.
Proof.
  intros Hne Hj. unfold write_at. case_decide as Hi.
  - now rewrite list_lookup_insert_ne.
  - now apply lookup_app_l_Some.
Qed.

Lemma _write_ec_usable (offset value : Z) (b : byte) (m : Machine) :
  usable m -> 0 <= offset -> bytes1 value = Some b ->
  exists m',
    _write_ec offset value m = (Returns true, m') /\
    usable m' /\
    ec_space (world m') = write_at (Z.to_nat offset) b (ec_space (world m)).
Proof.
  intros [Hf Hp] Hoff Hb.
  apply Z.ltb_ge in Hoff.
  destruct m as [[p u] [] tr]. unfold usable. py_unfold. subst.
  rewrite Hb, Hoff.
  destruct p as [[|]|]; py_unfold; rewrite ?Hp;
    [destruct u | destruct u |
     destruct sys_present0; [|cbn [orb] in Hp; rewrite Hp]];
    eexists; (split; [reflexivity|]); cbn; auto.
Qed.

Lemma _read_ec_usable (offset : Z) (m : Machine) :
  usable m -> 0 <= offset ->
  exists m',
    _read_ec offset m
      = (Returns (byte_to_int <$> ec_space (world m) !! Z.to_nat offset), m') /\
    usable m' /\
    ec_space (world m') = ec_space (world m).
Proof.
  intros [Hf Hp] Hoff.
  apply Z.ltb_ge in Hoff.
  destruct m as [[p u] [] tr]. unfold usable. py_unfold. subst.
  rewrite Hoff.
  destruct p as [[|]|]; py_unfold; rewrite ?Hp;
    [ | | destruct sys_present0; [|cbn [orb] in Hp; rewrite Hp]];
    eexists; (split; [reflexivity|]); cbn; auto.
Qed.

(** C5: on a usable store, for a percent [p] in [0,100],
    [set_custom_fans p p] succeeds and the [get_fan_info] that follows
    reports mode ["custom"] and [p] as both the CPU and the GPU percent. *)
Theorem set_custom_fans_get_fan_info (p : Z) (m : Machine) :
  0 <= p <= 100 -> usable m ->
  exists m1 info m2,
    set_custom_fans p p m = (Returns true, m1) /\
    get_fan_info m1 = (Returns info, m2) /\
    mode info = "custom"%string /\
    cpu_percent info = Some p /\
    gpu_percent info = Some p.
Proof.
  intros Hp Hu.
  destruct (bytes1_in_range 0x11 ltac:(lia)) as (b0 & Hb0 & _).
  destruct (bytes1_in_range 0x30 ltac:(lia)) as (bg & Hbg & Hig).
  destruct (bytes1_in_range 0x0C ltac:(lia)) as (bc & Hbc & Hic).
  destruct (bytes1_in_range p ltac:(lia)) as (bp & Hbp & Hip).
  destruct (_write_ec_usable EC_WRITE_ENABLE 0x11 b0 m Hu ltac:(discriminate) Hb0)
    as (ma & Ha & Hua & Hsa).
  destruct (_write_ec_usable EC_GPU_FAN_MODE 0x30 bg ma Hua ltac:(discriminate) Hbg)
    as (mb & Hb & Hub & Hsb).
  destruct (_write_ec_usable EC_CPU_FAN_MODE 0x0C bc mb Hub ltac:(discriminate) Hbc)
    as (mc & Hc & Huc & Hsc).
  destruct (_write_ec_usable EC_CPU_FAN_PCT p bp mc Huc ltac:(discriminate) Hbp)
    as (md & Hd & Hud & Hsd).
  destruct (_write_ec_usable EC_GPU_FAN_PCT p bp md Hud ltac:(discriminate) Hbp)
    as (m1 & He & Hu1 & Hs1).
  (* the four bytes, as they stand in the register space after the writes *)
  assert (Hgm : ec_space (world m1) !! Z.to_nat EC_GPU_FAN_MODE = Some bg).
  { rewrite Hs1, Hsd, Hsc.
    do 3 (apply write_at_lookup_ne; [discriminate|]).
    rewrite Hsb. apply write_at_lookup_eq. }
  assert (Hcm : ec_space (world m1) !! Z.to_nat EC_CPU_FAN_MODE = Some bc).
  { rewrite Hs1, Hsd.
    do 2 (apply write_at_lookup_ne; [discriminate|]).
    rewrite Hsc. apply write_at_lookup_eq. }
  assert (Hcp : ec_space (world m1) !! Z.to_nat EC_CPU_FAN_PCT = Some bp).
  { rewrite Hs1. apply write_at_lookup_ne; [discriminate|].
    rewrite Hsd. apply write_at_lookup_eq. }
  assert (Hgp : ec_space (world m1) !! Z.to_nat EC_GPU_FAN_PCT = Some bp).
  { rewrite Hs1. apply write_at_lookup_eq. }
  (* the reads of get_fan_info *)
  destruct (get_fan_info_run m1)
    as (cm & r1 & gm & r2 & cp & r3 & gp & r4 & cr & r5 & gr & r6 & boost
        & m2 & H1 & H2 & H3 & H4 & _ & _ & _ & Hinfo).
  destruct (_read_ec_usable EC_CPU_FAN_MODE m1 Hu1 ltac:(discriminate))
    as (r1' & H1' & Hur1 & Hsr1).
  rewrite H1' in H1. inversion H1; subst r1' cm. clear H1.
  destruct (_read_ec_usable EC_GPU_FAN_MODE r1 Hur1 ltac:(discriminate))
    as (r2' & H2' & Hur2 & Hsr2).
  rewrite H2' in H2. inversion H2; subst r2' gm. clear H2.
  destruct (_read_ec_usable EC_CPU_FAN_PCT r2 Hur2 ltac:(discriminate))
    as (r3' & H3' & Hur3 & Hsr3).
  rewrite H3' in H3. inversion H3; subst r3' cp. clear H3.
  destruct (_read_ec_usable EC_GPU_FAN_PCT r3 Hur3 ltac:(discriminate))
    as (r4' & H4' & Hur4 & Hsr4).
  rewrite H4' in H4. inversion H4; subst r4' gp. clear H4.
  rewrite ?Hsr3, ?Hsr2, ?Hsr1, Hgp, Hcp, Hgm, Hcm in Hinfo.
  cbn [fmap option_fmap option_map] in Hinfo.
  rewrite Hig, Hic, Hip in Hinfo.
  exists m1. eexists. exists m2.
  split; [|split; [exact Hinfo|cbn; auto]].
  unfold set_custom_fans, _enable_write.
  rewrite (percents_accepted _ _ Hp Hp).
  run Ha. cbn [negb].
  run Hb; run Hc; run Hd; run He.
  reflexivity.
Qed.

(** ** Fan speed *)

Lemma _read_fan_rpm_ec_direct (lo_reg hi_reg : Z) (m : Machine) r m' :
  _read_fan_rpm_ec lo_reg (Some hi_reg) m = (Returns r, m') ->
  direct_rpm lo_reg hi_reg m r m'.
Proof.
  unfold _read_fan_rpm_ec, direct_rpm. intros H.
  destruct (_read_ec_returns lo_reg m) as (lo & m1 & H1).
  rewrite (bind_returns _ _ _ _ _ H1) in H. exists lo, m1.
  split; [assumption|].
  destruct lo as [l|]; [|unfold ret in H; inversion H; auto].
  destruct (_read_ec_returns hi_reg m1) as (hi & m2 & H2).
  rewrite (bind_returns _ _ _ _ _ (bind_returns _ _ _ _ _ H2)) in H.
  unfold ret in H. cbv zeta.
  set (val := match hi with Some h => Z.lor (Z.shiftl h 8) l | None => l end)
    in *.
  exists hi.
  destruct (Z.eqb_spec val 0) as [E0|E0], (Z.gtb_spec val 65000) as [E1|E1];
    cbn [orb] in H; inversion H; subst; (split; [assumption|]);
    case_decide; (reflexivity || lia).
Qed.

(** C6: in [get_fan_info], after the four mode and percent reads, each
    domain's direct RPM read takes the low byte and the high byte,
    combines them as [(high << 8) | low] when the high byte is readable
    and drops a value of 0 or above 65000; the RPM reported for the
    domain is the direct value when there is one, and otherwise
    [percent * 55] when the domain's percent register was readable. *)
Theorem get_fan_info_rpm (m : Machine) :
  exists cp gp m4 cr m5 gr m6 info m',
    (_read_ec EC_CPU_FAN_MODE ;;
     _read_ec EC_GPU_FAN_MODE ;;
     cp <- _read_ec EC_CPU_FAN_PCT ;;
     gp <- _read_ec EC_GPU_FAN_PCT ;;
     ret (cp, gp)) m = (Returns (cp, gp), m4) /\
    direct_rpm 0x13 0x14 m4 cr m5 /\
    direct_rpm 0x15 0x16 m5 gr m6 /\
    get_fan_info m = (Returns info, m') /\
    cpu_rpm info = match cr, cp with
                   | Some v, _ => Some v
                   | None, Some p => Some (p * 55)
                   | None, None => None
                   end /\
    gpu_rpm info = match gr, gp with
                   | Some v, _ => Some v
                   | None, Some p => Some (p * 55)
                   | None, None => None
                   end.
Proof.
  destruct (get_fan_info_run m)
    as (cm & m1 & gm & m2 & cp & m3 & gp & m4 & cr & m5 & gr & m6 & boost
        & m7 & H1 & H2 & H3 & H4 & H5 & H6 & _ & Hinfo).
  exists cp, gp, m4, cr, m5, gr, m6. eexists. exists m7.
  split.
  { run H1; run H2; run H3; run H4.
    reflexivity. }
  split; [now apply _read_fan_rpm_ec_direct|].
  split; [now apply _read_fan_rpm_ec_direct|].
  split; [exact Hinfo|].
  cbn [cpu_rpm gpu_rpm]. unfold rpm_or_estimate.
  destruct cr, gr, cp, gp; auto.
Qed.

Lemma _read_fan_rpm_ec_plausible (lo_reg hi_reg : Z) (m : Machine) v m' :
  _read_fan_rpm_ec lo_reg (Some hi_reg) m = (Returns (Some v), m') ->
  0 < v <= 65000.
Proof.
  intros H. apply _read_fan_rpm_ec_direct in H.
  destruct H as ([l|] & m1 & Hlo & H); [|destruct H; discriminate].
  destruct H as (hi & Hhi & Hv). cbv zeta in Hv.
  apply _read_ec_range in Hlo.
  assert (Hnn : 0 <= match hi with
                     | Some h => Z.lor (Z.shiftl h 8) l
                     | None => l
                     end).
  { destruct hi as [h|]; [|lia].
    apply _read_ec_range in Hhi.
    apply Z.lor_nonneg. split; [apply Z.shiftl_nonneg|]; lia. }
  case_decide; [discriminate|]. inversion Hv. lia.
Qed.

Lemma rpm_or_estimate_bounds (rpm pct : option Z) v :
  match rpm with Some d => 0 < d <= 65000 | None => True end ->
  match pct with Some p => 0 <= p <= 255 | None => True end ->
  rpm_or_estimate rpm pct = Some v ->
  0 < v <= 65000 \/ (v = 0 /\ pct = Some 0).
Proof.
  unfold rpm_or_estimate.
  destruct rpm as [d|], pct as [p|]; intros Hd Hp Hv; inversion Hv; subst;
    auto.
  destruct (Z.eq_dec p 0) as [->|]; [right; auto | left; lia].
Qed.

(** C7, as the code has it: every RPM that [get_fan_info] reports lies in
    1..65000, or is the 0 that [percent * 55] gives for a percent register
    reading 0; a value above 65000 is never reported. *)
Theorem get_fan_info_rpm_bounds (m : Machine) :
  exists info m',
    get_fan_info m = (Returns info, m') /\
    match cpu_rpm info with
    | Some v => 0 < v <= 65000 \/ (v = 0 /\ cpu_percent info = Some 0)
    | None => True
    end /\
    match gpu_rpm info with
    | Some v => 0 < v <= 65000 \/ (v = 0 /\ gpu_percent info = Some 0)
    | None => True
    end.
Proof.
  destruct (get_fan_info_run m)
    as (cm & m1 & gm & m2 & cp & m3 & gp & m4 & cr & m5 & gr & m6 & boost
        & m7 & _ & _ & H3 & H4 & H5 & H6 & _ & Hinfo).
  eexists. exists m7. split; [exact Hinfo|].
  cbn [cpu_rpm gpu_rpm cpu_percent gpu_percent].
  assert (Hcr : match cr with Some d => 0 < d <= 65000 | None => True end).
  { destruct cr; [|trivial]. eapply _read_fan_rpm_ec_plausible, H5. }
  assert (Hgr : match gr with Some d => 0 < d <= 65000 | None => True end).
  { destruct gr; [|trivial]. eapply _read_fan_rpm_ec_plausible, H6. }
  assert (Hcp : match cp with Some p => 0 <= p <= 255 | None => True end).
  { destruct cp; [|trivial]. eapply _read_ec_range, H3. }
  assert (Hgp : match gp with Some p => 0 <= p <= 255 | None => True end).
  { destruct gp; [|trivial]. eapply _read_ec_range, H4. }
  split.
  - destruct (rpm_or_estimate cr cp) eqn:E; [|trivial].
    apply (rpm_or_estimate_bounds cr cp); assumption.
  - destruct (rpm_or_estimate gr gp) eqn:E; [|trivial].
    apply (rpm_or_estimate_bounds gr gp); assumption.
Qed.

(** ** The cached interface handle *)

(** C8, as the code has it: with a handle cached whose node is gone, a
    read returns [None] and a write returns [False] after the one
    [exists()] probe of the cached node; the handle is kept, discovery is
    not run and the other candidate is not probed. *)
Theorem stale_handle_fails_without_discovery
    (offset value : Z) (p : Path) (m : Machine) :
  _ec_path (self m) = Some p ->
  present p (world m) = false ->
  _read_ec offset m = (Returns None, logged [EvExists p] m) /\
  _write_ec offset value m = (Returns false, logged [EvExists p] m).
Proof.
  destruct m as [[q u] [] tr]. unfold logged. py_unfold.
  intros Hq Hp. subst q. destruct p; py_unfold; rewrite Hp; auto.
Qed.

(** ** Availability *)

(** C9, as the code has it: when it runs as root, [is_available] invokes
    [modprobe] once, right after the privilege check and before it probes
    any candidate, whether or not a candidate node exists; when it does
    not run as root it invokes nothing and only the privilege check is
    logged. *)
Theorem is_available_modprobe_first (m : Machine) :
  exists r m',
    is_available m = (Returns r, m') /\
    if euid (world m) =? 0 then
      exists rest,
        trace m' = trace m ++ EvGeteuid :: EvModprobe :: rest /\
        ~ In EvModprobe rest
    else
      m' = logged [EvGeteuid] m.
Proof.
  destruct m as [[q u] [] tr].
  unfold is_available, _ensure_ec_sys, run_modprobe, geteuid, logged.
  py_unfold.
  destruct (euid0 =? 0); cbn [negb]; [|eauto].
  py_cases; do 2 eexists; (split; [reflexivity|]); cbn [trace];
    rewrite <- ?app_assoc; cbn [app];
    eexists; (split; [reflexivity|]); cbn [In];
    intuition discriminate.
Qed.

(** ** Single-argument entry points *)

(** C10: [set_cooler_boost(b)] is [set_cooler_boost_individual(b, b)] and
    [set_custom_fan(p)] is [set_custom_fans(p, p)]: from any machine the
    two return the same result and leave the same machine, log of
    accesses included. *)
Theorem single_argument_entry_points (b : bool) (p : Z) (m : Machine) :
  set_cooler_boost b m = set_cooler_boost_individual b b m /\
  set_custom_fan p m = set_custom_fans p p m.
Proof. split; reflexivity. Qed.

(** ** Concrete runs *)

Lemma gate_decides_result_witness :
  0 <= 40 <= 100 /\ 0 <= 60 <= 100 /\
  exists ok m0 m1 m2,
    _write_ec 0x03 0x11 failing_mode_writes = (Returns ok, m0) /\
    set_cooler_boost_individual true false failing_mode_writes
      = (Returns ok, m1) /\
    set_custom_fans 40 60 failing_mode_writes = (Returns ok, m2) /\
    if ok then True else m1 = m0 /\ m2 = m0.
Proof.
  split; [lia|]. split; [lia|].
  apply (gate_decides_result true false 40 60 failing_mode_writes); lia.
Defined.

Lemma set_custom_fans_rejects_out_of_range_witness :
  (~ (0 <= 101 <= 100) \/ ~ (0 <= 50 <= 100)) /\
  set_custom_fans 101 50 (boot (quiet_world true false (zeros 256)))
    = (Returns false, boot (quiet_world true false (zeros 256))).
Proof.
  split; [left; lia|].
  apply (set_custom_fans_rejects_out_of_range 101 50). left. lia.
Defined.

Lemma set_custom_fans_get_fan_info_witness :
  0 <= 50 <= 100 /\
  usable (boot (quiet_world false true (zeros 256))) /\
  exists m1 info m2,
    set_custom_fans 50 50 (boot (quiet_world false true (zeros 256)))
      = (Returns true, m1) /\
    get_fan_info m1 = (Returns info, m2) /\
    mode info = "custom"%string /\
    cpu_percent info = Some 50 /\
    gpu_percent info = Some 50.
Proof.
  split; [lia|]. split; [split; reflexivity|].
  apply (set_custom_fans_get_fan_info 50
           (boot (quiet_world false true (zeros 256)))).
  - lia.
  - split; reflexivity.
Defined.

(** The RPM is reported as 0 when the RPM registers and the percent
    register all read 0. *)
Lemma get_fan_info_reports_rpm_zero :
  exists info m',
    get_fan_info (boot (quiet_world true false (zeros 256)))
      = (Returns info, m') /\
    cpu_rpm info = Some 0 /\
    gpu_rpm info = Some 0.
Proof. vm_compute. eauto. Qed.

Lemma stale_handle_fails_without_discovery_witness :
  _ec_path (self stale_machine) = Some EC_SYS_PATH /\
  present EC_SYS_PATH (world stale_machine) = false /\
  _read_ec EC_CPU_FAN_MODE stale_machine
    = (Returns None, logged [EvExists EC_SYS_PATH] stale_machine) /\
  _write_ec EC_CPU_FAN_MODE 0x08 stale_machine
    = (Returns false, logged [EvExists EC_SYS_PATH] stale_machine).
Proof.
  split; [reflexivity|]. split; [reflexivity|].
  apply (stale_handle_fails_without_discovery EC_CPU_FAN_MODE 0x08
           EC_SYS_PATH stale_machine); reflexivity.
Defined.

(** The cached debugfs node is gone and [/dev/ec] is there: the read
    fails at the probe of the cached node, discovery is not run, and the
    handle still names the missing node. *)
Lemma stale_handle_is_not_re_resolved :
  present EC_ACPI_PATH (world stale_machine) = true /\
  exists m',
    _read_ec EC_CPU_FAN_MODE stale_machine = (Returns None, m') /\
    trace m' = [EvExists EC_SYS_PATH] /\
    ~ In EvDetect (trace m') /\
    _ec_path (self m') = Some EC_SYS_PATH.
Proof.
  split; [reflexivity|]. eexists. split; [vm_compute; reflexivity|].
  cbn. intuition discriminate.
Qed.

(** Both candidate nodes exist and [modprobe] is run all the same, before
    the first probe. *)
Lemma is_available_runs_modprobe_with_nodes_present :
  exists r m',
    is_available (boot (quiet_world true true (zeros 256)))
      = (Returns r, m') /\
    trace m' = [EvGeteuid; EvModprobe; EvExists EC_SYS_PATH;
                EvDetect; EvExists EC_SYS_PATH;
                EvDetect; EvExists EC_SYS_PATH] /\
    In EvModprobe (trace m').
Proof.
  do 2 eexists. split; [vm_compute; reflexivity|].
  cbn. auto.
Qed.

(** The known gap: the two mode writes fail, the result is [True] and the
    mode registers are as they were. *)
Example failed_mode_writes_reported_as_success :
  exists m',
    set_cooler_boost true failing_mode_writes = (Returns true, m') /\
    ec_space (world m') !! Z.to_nat EC_CPU_FAN_MODE = Some x00 /\
    ec_space (world m') !! Z.to_nat EC_GPU_FAN_MODE = Some x00.
Proof. eexists. split; [vm_compute; reflexivity|]. split; reflexivity. Qed.

(** Percent 50 and RPM registers that read 0: the estimate is 2750. *)
Example estimate_at_percent_50 :
  exists info m',
    get_fan_info
      (boot (quiet_world true false
               (registers [(EC_CPU_FAN_PCT, x32); (EC_GPU_FAN_PCT, x32)])))
      = (Returns info, m') /\
    cpu_percent info = Some 50 /\
    cpu_rpm info = Some 2750 /\
    gpu_rpm info = Some 2750.
Proof. vm_compute. eauto 6. Qed.

(** A raw value of 65001 = 0xfde9 is dropped by the direct read, and a
    raw value of 1200 = 0x04b0 is returned. *)
Example direct_read_65001_and_1200 :
  fst (_read_fan_rpm_ec EC_CPU_FAN_RPM_LO (Some EC_CPU_FAN_RPM_HI)
         (boot (quiet_world true false
                  (registers [(EC_CPU_FAN_RPM_LO, xe9);
                              (EC_CPU_FAN_RPM_HI, xfd)]))))
    = Returns None /\
  fst (_read_fan_rpm_ec EC_GPU_FAN_RPM_LO (Some EC_GPU_FAN_RPM_HI)
         (boot (quiet_world true false
                  (registers [(EC_GPU_FAN_RPM_LO, xb0);
                              (EC_GPU_FAN_RPM_HI, x04)]))))
    = Returns (Some 1200).
Proof. split; vm_compute; reflexivity. Qed.

(** CPU on auto (0x04) and GPU on max (0x20): the mode is ["unknown"]
    and the aggregate boost status is [False]. *)
Example auto_with_max_is_unknown :
  exists info m',
    get_fan_info
      (boot (quiet_world true false
               (registers [(EC_CPU_FAN_MODE, x04); (EC_GPU_FAN_MODE, x20)])))
      = (Returns info, m') /\
    mode info = "unknown"%string /\
    cooler_boost info = Some false /\
    gpu_cooler_boost info = Some true.
Proof. vm_compute. eauto 6. Qed.

(** A value that is no byte escapes [_write_ec] as a [ValueError]; the
    public setters never pass one. *)
Example _write_ec_value_error :
  fst (_write_ec EC_CPU_FAN_PCT 256 (boot (quiet_world true false (zeros 256))))
    = Raises ValueError.
Proof. vm_compute. reflexivity. Qed.

(** ** What a register access changes *)


Lemma _read_ec_value (offset : Z) (m : Machine) v m' :
  _read_ec offset m = (Returns (Some v), m') ->
  0 <= offset /\
  byte_to_int <$> ec_space (world m) !! Z.to_nat offset = Some v.
Proof.
  destruct m as [[p u] [] tr]. py_unfold.
  py_cases; intros H; inversion H; subst;
    (split; [now apply Z.ltb_ge | reflexivity]).
Qed.

(** A write changes the register space exactly when it returns [True],
    and then by the one byte at its offset. *)
Lemma _write_ec_effect (offset value : Z) (m : Machine) r m' :
  _write_ec offset value m = (r, m') ->
  match r with
  | Returns true =>
      0 <= offset /\
      exists b, bytes1 value = Some b /\
        ec_space (world m')
          = write_at (Z.to_nat offset) b (ec_space (world m))
  | _ => ec_space (world m') = ec_space (world m)
  end.
Proof.
  destruct m as [[p u] [] tr]. py_unfold.
  destruct (bytes1 value) as [b|] eqn:Hb;
    py_cases; intros H; inversion H; subst; try reflexivity;
    (split; [now apply Z.ltb_ge | exists b; split; reflexivity]).
Qed.

(** X1: whatever the state of the interface and the schedule of I/O
    errors, when [_write_ec] returns [True] and the [_read_ec] of the same
    offset that follows returns a byte, the byte is the value written. *)
Theorem write_ec_then_read_ec (offset value : Z) (m : Machine) m1 r m2 :
  _write_ec offset value m = (Returns true, m1) ->
  _read_ec offset m1 = (Returns (Some r), m2) ->
  r = value.
Proof.
  intros Hw Hr.
  apply _write_ec_effect in Hw. destruct Hw as (_ & b & Hb & Hs).
  apply _read_ec_value in Hr. destruct Hr as (_ & Hr).
  rewrite Hs, write_at_lookup_eq in Hr. cbn in Hr. inversion Hr.
  unfold bytes1 in Hb.
  destruct ((0 <=? value) && (value <=? 255)) eqn:E; [|discriminate].
  apply andb_true_iff in E. destruct E as [E _]. apply Z.leb_le in E.
  apply Byte.to_of_N in Hb. unfold byte_to_int. rewrite Hb. lia.
Qed.

(** The run of [set_cooler_boost_individual], access by access. *)
Lemma set_cooler_boost_individual_run (cpu_max gpu_max : bool) (m : Machine) :
  exists ok m0,
    _write_ec EC_WRITE_ENABLE 0x11 m = (Returns ok, m0) /\
    if ok then
      exists cm ma gm mb w1 mc w2 m1,
        _read_ec EC_CPU_FAN_MODE m0 = (Returns cm, ma) /\
        _read_ec EC_GPU_FAN_MODE ma = (Returns gm, mb) /\
        _write_ec EC_CPU_FAN_MODE (if cpu_max then 0x08 else 0x04) mb
          = (Returns w1, mc) /\
        _write_ec EC_GPU_FAN_MODE (if gpu_max then 0x20 else 0x10) mc
          = (Returns w2, m1) /\
        set_cooler_boost_individual cpu_max gpu_max m = (Returns true, m1)
    else
      set_cooler_boost_individual cpu_max gpu_max m = (Returns false, m0).
Proof.
  destruct (_write_ec_returns EC_WRITE_ENABLE 0x11 m ltac:(lia))
    as (ok & m0 & H0).
  exists ok, m0. split; [assumption|].
  unfold set_cooler_boost_individual, _enable_write. run H0.
  destruct ok; cbn [negb]; [|reflexivity].
  destruct (_read_ec_returns EC_CPU_FAN_MODE m0) as (cm & ma & Ha).
  destruct (_read_ec_returns EC_GPU_FAN_MODE ma) as (gm & mb & Hb).
  destruct (_write_ec_returns EC_CPU_FAN_MODE (if cpu_max then 0x08 else 0x04)
              mb ltac:(destruct cpu_max; lia)) as (w1 & mc & Hw1).
  destruct (_write_ec_returns EC_GPU_FAN_MODE (if gpu_max then 0x20 else 0x10)
              mc ltac:(destruct gpu_max; lia)) as (w2 & m1 & Hw2).
  exists cm, ma, gm, mb, w1, mc, w2, m1.
  repeat (split; [assumption|]).
  run Ha; run Hb. cbv zeta. run Hw1; run Hw2. reflexivity.
Qed.

(** The run of [set_custom_fans] on percents in range. *)
Lemma set_custom_fans_run (cpu_percent gpu_percent : Z) (m : Machine) :
  0 <= cpu_percent <= 100 -> 0 <= gpu_percent <= 100 ->
  exists ok m0,
    _write_ec EC_WRITE_ENABLE 0x11 m = (Returns ok, m0) /\
    if ok then
      exists w1 ma w2 mb w3 mc w4 m1,
        _write_ec EC_GPU_FAN_MODE 0x30 m0 = (Returns w1, ma) /\
        _write_ec EC_CPU_FAN_MODE 0x0C ma = (Returns w2, mb) /\
        _write_ec EC_CPU_FAN_PCT cpu_percent mb = (Returns w3, mc) /\
        _write_ec EC_GPU_FAN_PCT gpu_percent mc = (Returns w4, m1) /\
        set_custom_fans cpu_percent gpu_percent m = (Returns true, m1)
    else
      set_custom_fans cpu_percent gpu_percent m = (Returns false, m0).
Proof.
  intros Hc Hg.
  destruct (_write_ec_returns EC_WRITE_ENABLE 0x11 m ltac:(lia))
    as (ok & m0 & H0).
  exists ok, m0. split; [assumption|].
  unfold set_custom_fans, _enable_write.
  rewrite (percents_accepted _ _ Hc Hg). run H0.
  destruct ok; cbn [negb]; [|reflexivity].
  destruct (_write_ec_returns EC_GPU_FAN_MODE 0x30 m0 ltac:(lia))
    as (w1 & ma & H1).
  destruct (_write_ec_returns EC_CPU_FAN_MODE 0x0C ma ltac:(lia))
    as (w2 & mb & H2).
  destruct (_write_ec_returns EC_CPU_FAN_PCT cpu_percent mb ltac:(lia))
    as (w3 & mc & H3).
  destruct (_write_ec_returns EC_GPU_FAN_PCT gpu_percent mc ltac:(lia))
    as (w4 & m1 & H4).
  exists w1, ma, w2, mb, w3, mc, w4, m1.
  repeat (split; [assumption|]).
  run H1; run H2; run H3; run H4. reflexivity.
Qed.

(** Out of range, [set_custom_fans] is a no-op that returns [False]. *)
Lemma set_custom_fans_cases (cpu_percent gpu_percent : Z) :
  (0 <= cpu_percent <= 100 /\ 0 <= gpu_percent <= 100) \/
  (forall m, set_custom_fans cpu_percent gpu_percent m = (Returns false, m)).
Proof.
  unfold set_custom_fans.
  destruct (Z.leb_spec 0 cpu_percent), (Z.leb_spec cpu_percent 100),
    (Z.leb_spec 0 gpu_percent), (Z.leb_spec gpu_percent 100);
    try (left; lia); right; reflexivity.
Qed.

(** X2: when a setter returns [False], whether for a percent out of range
    or for a failed enable write, every register is as it was. *)
Theorem failed_setter_changes_no_register
    (cpu_max gpu_max : bool) (cpu_percent gpu_percent : Z) (m : Machine) :
  exists r1 m1 r2 m2,
    set_cooler_boost_individual cpu_max gpu_max m = (Returns r1, m1) /\
    set_custom_fans cpu_percent gpu_percent m = (Returns r2, m2) /\
    (if r1 then True else ec_space (world m1) = ec_space (world m)) /\
    (if r2 then True else ec_space (world m2) = ec_space (world m)).
Proof.
  destruct (set_cooler_boost_individual_run cpu_max gpu_max m)
    as (ok & m0 & H0 & Hrun).
  assert (Hboost : exists r1 m1,
            set_cooler_boost_individual cpu_max gpu_max m = (Returns r1, m1) /\
            if r1 then True else ec_space (world m1) = ec_space (world m)).
  { destruct ok.
    - destruct Hrun as (? & ? & ? & ? & ? & ? & ? & m1 & _ & _ & _ & _ & Hr).
      exists true, m1. auto.
    - exists false, m0. split; [assumption|].
      exact (_write_ec_effect _ _ _ _ _ H0). }
  destruct Hboost as (r1 & m1 & Hr1 & Hs1). exists r1, m1.
  destruct (set_custom_fans_cases cpu_percent gpu_percent) as [[Hc Hg]|Hout];
    [|exists false, m; rewrite Hout; auto].
  destruct (set_custom_fans_run cpu_percent gpu_percent m Hc Hg)
    as (ok' & m0' & H0' & Hrun').
  destruct ok'.
  - destruct Hrun' as (? & ? & ? & ? & ? & ? & ? & m2 & _ & _ & _ & _ & Hr).
    exists true, m2. auto.
  - exists false, m0'. repeat (split; [assumption|]).
    exact (_write_ec_effect _ _ _ _ _ H0').
Qed.









(** ** The getters only read *)

Lemma write_attempts_app (e1 e2 : list Event) :
  write_attempts (e1 ++ e2) = write_attempts e1 ++ write_attempts e2.
Proof. apply flat_map_app. Qed.

Lemma reads_only_refl (m : Machine) : reads_only m m.
Proof. split; [reflexivity|]. exists []. now rewrite app_nil_r. Qed.






(** ** On a usable store the getters are functions of the registers *)

Lemma _read_ec_reg (offset : Z) (m : Machine) :
  usable m -> 0 <= offset ->
  exists m',
    _read_ec offset m = (Returns (reg (ec_space (world m)) offset), m') /\
    usable m' /\
    ec_space (world m') = ec_space (world m).
Proof. apply _read_ec_usable. Qed.

Lemma get_cooler_boost_status_usable (m : Machine) :
  usable m ->
  exists m',
    get_cooler_boost_status m
      = (Returns (status_of (ec_space (world m))), m') /\
    usable m' /\
    ec_space (world m') = ec_space (world m).
Proof.
  intros Hu. unfold get_cooler_boost_status, status_of.
  destruct (_read_ec_reg EC_CPU_FAN_MODE m Hu ltac:(discriminate))
    as (m1 & H1 & Hu1 & Hs1).
  destruct (_read_ec_reg EC_GPU_FAN_MODE m1 Hu1 ltac:(discriminate))
    as (m2 & H2 & Hu2 & Hs2).
  run H1; run H2. rewrite Hs1. exists m2.
  split; [|split; [assumption|congruence]].
  destruct (reg (ec_space (world m)) EC_CPU_FAN_MODE),
    (reg (ec_space (world m)) EC_GPU_FAN_MODE); reflexivity.
Qed.

Lemma _read_fan_rpm_ec_usable (lo_reg hi_reg : Z) (m : Machine) :
  usable m -> 0 <= lo_reg -> 0 <= hi_reg ->
  exists m',
    _read_fan_rpm_ec lo_reg (Some hi_reg) m
      = (Returns (direct_of (ec_space (world m)) lo_reg hi_reg), m') /\
    usable m' /\
    ec_space (world m') = ec_space (world m).
Proof.
  intros Hu Hlo Hhi. unfold _read_fan_rpm_ec, direct_of.
  destruct (_read_ec_reg lo_reg m Hu Hlo) as (m1 & H1 & Hu1 & Hs1).
  run H1. destruct (reg _ lo_reg) as [lo|]; [|exists m1; auto].
  destruct (_read_ec_reg hi_reg m1 Hu1 Hhi) as (m2 & H2 & Hu2 & Hs2).
  rewrite (bind_returns _ _ _ _ _ (bind_returns _ _ _ _ _ H2)).
  rewrite Hs1. cbv zeta. exists m2.
  split; [|split; [assumption|congruence]].
  unfold ret. destruct (_ || _); reflexivity.
Qed.

(** On a usable store [get_fan_info] returns the snapshot of the register
    space and leaves the store usable and the registers as they were. *)
Lemma get_fan_info_usable (m : Machine) :
  usable m ->
  exists m',
    get_fan_info m = (Returns (snapshot_of (ec_space (world m))), m') /\
    usable m' /\
    ec_space (world m') = ec_space (world m).
Proof.
  intros Hu. unfold get_fan_info, snapshot_of.
  destruct (_read_ec_reg EC_CPU_FAN_MODE m Hu ltac:(discriminate))
    as (m1 & H1 & Hu1 & Hs1).
  destruct (_read_ec_reg EC_GPU_FAN_MODE m1 Hu1 ltac:(discriminate))
    as (m2 & H2 & Hu2 & Hs2).
  destruct (_read_ec_reg EC_CPU_FAN_PCT m2 Hu2 ltac:(discriminate))
    as (m3 & H3 & Hu3 & Hs3).
  destruct (_read_ec_reg EC_GPU_FAN_PCT m3 Hu3 ltac:(discriminate))
    as (m4 & H4 & Hu4 & Hs4).
  destruct (_read_fan_rpm_ec_usable EC_CPU_FAN_RPM_LO EC_CPU_FAN_RPM_HI m4 Hu4
              ltac:(discriminate) ltac:(discriminate))
    as (m5 & H5 & Hu5 & Hs5).
  destruct (_read_fan_rpm_ec_usable EC_GPU_FAN_RPM_LO EC_GPU_FAN_RPM_HI m5 Hu5
              ltac:(discriminate) ltac:(discriminate))
    as (m6 & H6 & Hu6 & Hs6).
  destruct (get_cooler_boost_status_usable m6 Hu6) as (m7 & H7 & Hu7 & Hs7).
  run H1; run H2; run H3; run H4. cbv zeta. run H5; run H6; run H7.
  exists m7. rewrite Hs7, ?Hs6, ?Hs5, ?Hs4, ?Hs3, ?Hs2, ?Hs1.
  split; [reflexivity|]. split; [assumption|reflexivity].
Qed.

(** ** Setting and reading back on a usable store *)

Lemma reg_write_at_eq (offset : Z) (b : byte) (l : list byte) :
  reg (write_at (Z.to_nat offset) b l) offset = Some (byte_to_int b).
Proof. unfold reg. now rewrite write_at_lookup_eq. Qed.

Lemma reg_write_at_ne (offset offset' : Z) (b : byte) (l : list byte) v :
  0 <= offset -> 0 <= offset' -> offset <> offset' ->
  reg l offset = Some v ->
  reg (write_at (Z.to_nat offset') b l) offset = Some v.
Proof.
  unfold reg. intros Ho Ho' Hne H.
  destruct (l !! Z.to_nat offset) as [x|] eqn:E; [|discriminate].
  rewrite (write_at_lookup_ne (Z.to_nat offset') (Z.to_nat offset) b x l);
    [assumption| |assumption].
  intros Heq. apply Hne. apply Z2Nat.inj in Heq; auto.
Qed.

Lemma set_cooler_boost_individual_usable (cpu_max gpu_max : bool) (m : Machine) :
  usable m ->
  exists m1,
    set_cooler_boost_individual cpu_max gpu_max m = (Returns true, m1) /\
    usable m1 /\
    ec_space (world m1)
      = write_at (Z.to_nat EC_GPU_FAN_MODE) (if gpu_max then x20 else x10)
          (write_at (Z.to_nat EC_CPU_FAN_MODE) (if cpu_max then x08 else x04)
             (write_at (Z.to_nat EC_WRITE_ENABLE) x11 (ec_space (world m)))).
Proof.
  intros Hu.
  destruct (_write_ec_usable EC_WRITE_ENABLE 0x11 x11 m Hu
              ltac:(discriminate) eq_refl) as (m0 & H0 & Hu0 & Hs0).
  destruct (_read_ec_reg EC_CPU_FAN_MODE m0 Hu0 ltac:(discriminate))
    as (ma & Ha & Hua & Hsa).
  destruct (_read_ec_reg EC_GPU_FAN_MODE ma Hua ltac:(discriminate))
    as (mb & Hb & Hub & Hsb).
  destruct (_write_ec_usable EC_CPU_FAN_MODE (if cpu_max then 0x08 else 0x04)
              (if cpu_max then x08 else x04) mb Hub ltac:(discriminate)
              ltac:(destruct cpu_max; reflexivity))
    as (mc & Hc & Huc & Hsc).
  destruct (_write_ec_usable EC_GPU_FAN_MODE (if gpu_max then 0x20 else 0x10)
              (if gpu_max then x20 else x10) mc Huc ltac:(discriminate)
              ltac:(destruct gpu_max; reflexivity))
    as (m1 & Hd & Hu1 & Hs1).
  exists m1. split; [|split; [assumption|]].
  - unfold set_cooler_boost_individual, _enable_write.
    run H0. cbn [negb]. run Ha; run Hb. cbv zeta. run Hc; run Hd.
    reflexivity.
  - rewrite Hs1, Hsc, Hsb, Hsa, Hs0. reflexivity.
Qed.

Lemma set_custom_fans_usable (cpu_percent gpu_percent : Z) (m : Machine) :
  0 <= cpu_percent <= 100 -> 0 <= gpu_percent <= 100 -> usable m ->
  exists bc bg m1,
    byte_to_int bc = cpu_percent /\ byte_to_int bg = gpu_percent /\
    set_custom_fans cpu_percent gpu_percent m = (Returns true, m1) /\
    usable m1 /\
    ec_space (world m1)
      = write_at (Z.to_nat EC_GPU_FAN_PCT) bg
          (write_at (Z.to_nat EC_CPU_FAN_PCT) bc
             (write_at (Z.to_nat EC_CPU_FAN_MODE) x0c
                (write_at (Z.to_nat EC_GPU_FAN_MODE) x30
                   (write_at (Z.to_nat EC_WRITE_ENABLE) x11
                      (ec_space (world m)))))).
Proof.
  intros Hc Hg Hu.
  destruct (bytes1_in_range cpu_percent ltac:(lia)) as (bc & Hbc & Hic).
  destruct (bytes1_in_range gpu_percent ltac:(lia)) as (bg & Hbg & Hig).
  destruct (_write_ec_usable EC_WRITE_ENABLE 0x11 x11 m Hu
              ltac:(discriminate) eq_refl) as (m0 & H0 & Hu0 & Hs0).
  destruct (_write_ec_usable EC_GPU_FAN_MODE 0x30 x30 m0 Hu0
              ltac:(discriminate) eq_refl) as (ma & Ha & Hua & Hsa).
  destruct (_write_ec_usable EC_CPU_FAN_MODE 0x0C x0c ma Hua
              ltac:(discriminate) eq_refl) as (mb & Hb & Hub & Hsb).
  destruct (_write_ec_usable EC_CPU_FAN_PCT cpu_percent bc mb Hub
              ltac:(discriminate) Hbc) as (mc & Hcc & Huc & Hsc).
  destruct (_write_ec_usable EC_GPU_FAN_PCT gpu_percent bg mc Huc
              ltac:(discriminate) Hbg) as (m1 & Hd & Hu1 & Hs1).
  exists bc, bg, m1. repeat (split; [assumption|]).
  split; [|split; [assumption|]].
  - unfold set_custom_fans, _enable_write.
    rewrite (percents_accepted _ _ Hc Hg).
    run H0. cbn [negb]. run Ha; run Hb; run Hcc; run Hd. reflexivity.
  - rewrite Hs1, Hsc, Hsb, Hsa, Hs0. reflexivity.
Qed.

(** Looks a register up through a stack of byte writes. *)
Ltac reg_lookup :=
  repeat first
    [ apply reg_write_at_eq
    | apply reg_write_at_ne; [discriminate | discriminate | discriminate |] ].

(** X6: on a usable store, after [set_cooler_boost_individual(c, g)] the
    snapshot of [get_fan_info] shows the per-domain flags [c] and [g], the
    aggregate flag [c and g], and the mode ["max"] when both are set,
    ["auto"] when neither is, ["unknown"] when they differ. *)
Theorem set_cooler_boost_individual_get_fan_info
    (cpu_max gpu_max : bool) (m : Machine) :
  usable m ->
  exists m1 info m2,
    set_cooler_boost_individual cpu_max gpu_max m = (Returns true, m1) /\
    get_fan_info m1 = (Returns info, m2) /\
    cpu_cooler_boost info = Some cpu_max /\
    gpu_cooler_boost info = Some gpu_max /\
    cooler_boost info = Some (cpu_max && gpu_max) /\
    mode info = (if cpu_max && gpu_max then "max"
                 else if negb cpu_max && negb gpu_max then "auto"
                 else "unknown")%string.
Proof.
  intros Hu.
  destruct (set_cooler_boost_individual_usable cpu_max gpu_max m Hu)
    as (m1 & Hset & Hu1 & Hs1).
  destruct (get_fan_info_usable m1 Hu1) as (m2 & Hget & _ & _).
  exists m1. eexists. exists m2.
  split; [exact Hset|]. split; [exact Hget|].
  assert (Hc : reg (ec_space (world m1)) EC_CPU_FAN_MODE
               = Some (if cpu_max then 0x08 else 0x04)).
  { rewrite Hs1. replace (if cpu_max then 8 else 4)
      with (byte_to_int (if cpu_max then x08 else x04))
      by (destruct cpu_max; reflexivity).
    reg_lookup. }
  assert (Hg : reg (ec_space (world m1)) EC_GPU_FAN_MODE
               = Some (if gpu_max then 0x20 else 0x10)).
  { rewrite Hs1. replace (if gpu_max then 32 else 16)
      with (byte_to_int (if gpu_max then x20 else x10))
      by (destruct gpu_max; reflexivity).
    reg_lookup. }
  unfold snapshot_of, status_of.
  cbn [cpu_cooler_boost gpu_cooler_boost cooler_boost mode].
  rewrite Hc, Hg. destruct cpu_max, gpu_max; repeat split; reflexivity.
Qed.

(** X7: on a usable store the snapshot is consistent with itself, although
    the aggregate flag comes from a second pair of reads: [cooler_boost]
    is the conjunction of the two per-domain flags, and it is [True]
    exactly when the mode is ["max"]. *)
Theorem get_fan_info_consistent (m : Machine) :
  usable m ->
  exists info m',
    get_fan_info m = (Returns info, m') /\
    cooler_boost info
      = match cpu_cooler_boost info, gpu_cooler_boost info with
        | Some c, Some g => Some (c && g)
        | _, _ => None
        end /\
    (cooler_boost info = Some true <-> mode info = "max"%string).
Proof.
  intros Hu.
  destruct (get_fan_info_usable m Hu) as (m' & Hget & _ & _).
  eexists. exists m'. split; [exact Hget|].
  unfold snapshot_of, status_of.
  cbn [cpu_cooler_boost gpu_cooler_boost cooler_boost mode].
  set (c := reg (ec_space (world m)) EC_CPU_FAN_MODE).
  set (g := reg (ec_space (world m)) EC_GPU_FAN_MODE).
  split; [destruct c, g; reflexivity|].
  rewrite (proj1 (mode_label_cases c g)).
  destruct c as [a|], g as [b|]; cbn;
    try (split; [discriminate | intros [? ?]; discriminate]).
  destruct (Z.eqb_spec a 8), (Z.eqb_spec b 32); cbn; split;
    intros H; try discriminate; try reflexivity;
    try (destruct H; congruence); subst; auto.
Qed.

Lemma write_at_same (i : nat) (b : byte) (l : list byte) :
  l !! i = Some b -> write_at i b l = l.
Proof.
  intros H. unfold write_at. case_decide as Hi.
  - now apply list_insert_id.
  - apply lookup_lt_Some in H. lia.
Qed.

(** Looks a byte up through a stack of byte writes. *)
Ltac byte_lookup :=
  repeat first
    [ apply write_at_lookup_eq
    | apply write_at_lookup_ne; [cbv; discriminate|] ].

Lemma byte_to_int_inj (a b : byte) : byte_to_int a = byte_to_int b -> a = b.
Proof.
  unfold byte_to_int. intros H. apply N2Z.inj in H.
  assert (Ha := Byte.of_to_N a). rewrite H, Byte.of_to_N in Ha.
  now inversion Ha.
Qed.

(** X8: on a usable store the setters are idempotent: a second call with
    the same arguments succeeds again and leaves every register as the
    first call left it. *)
Theorem setters_idempotent
    (cpu_max gpu_max : bool) (cpu_percent gpu_percent : Z) (m : Machine) :
  0 <= cpu_percent <= 100 -> 0 <= gpu_percent <= 100 -> usable m ->
  (exists m1 m2,
     set_cooler_boost_individual cpu_max gpu_max m = (Returns true, m1) /\
     set_cooler_boost_individual cpu_max gpu_max m1 = (Returns true, m2) /\
     ec_space (world m2) = ec_space (world m1)) /\
  (exists m1 m2,
     set_custom_fans cpu_percent gpu_percent m = (Returns true, m1) /\
     set_custom_fans cpu_percent gpu_percent m1 = (Returns true, m2) /\
     ec_space (world m2) = ec_space (world m1)).
Proof.
  intros Hc Hg Hu. split.
  - destruct (set_cooler_boost_individual_usable cpu_max gpu_max m Hu)
      as (m1 & Hset1 & Hu1 & Hs1).
    destruct (set_cooler_boost_individual_usable cpu_max gpu_max m1 Hu1)
      as (m2 & Hset2 & Hu2 & Hs2).
    exists m1, m2. repeat (split; [assumption|]).
    rewrite Hs2.
    rewrite (write_at_same (Z.to_nat EC_WRITE_ENABLE))
      by (rewrite Hs1; byte_lookup).
    rewrite (write_at_same (Z.to_nat EC_CPU_FAN_MODE))
      by (rewrite Hs1; byte_lookup).
    apply write_at_same. rewrite Hs1. byte_lookup.
  - destruct (set_custom_fans_usable cpu_percent gpu_percent m Hc Hg Hu)
      as (bc & bg & m1 & Hbc & Hbg & Hset1 & Hu1 & Hs1).
    destruct (set_custom_fans_usable cpu_percent gpu_percent m1 Hc Hg Hu1)
      as (bc' & bg' & m2 & Hbc' & Hbg' & Hset2 & Hu2 & Hs2).
    assert (bc' = bc) by (apply byte_to_int_inj; congruence).
    assert (bg' = bg) by (apply byte_to_int_inj; congruence).
    subst bc' bg'.
    exists m1, m2. repeat (split; [assumption|]).
    rewrite Hs2.
    rewrite (write_at_same (Z.to_nat EC_WRITE_ENABLE))
      by (rewrite Hs1; byte_lookup).
    rewrite (write_at_same (Z.to_nat EC_GPU_FAN_MODE))
      by (rewrite Hs1; byte_lookup).
    rewrite (write_at_same (Z.to_nat EC_CPU_FAN_MODE))
      by (rewrite Hs1; byte_lookup).
    rewrite (write_at_same (Z.to_nat EC_CPU_FAN_PCT))
      by (rewrite Hs1; byte_lookup).
    apply write_at_same. rewrite Hs1. byte_lookup.
Qed.

Lemma reg_in_space (l : list byte) (offset : Z) :
  (Z.to_nat offset < length l)%nat -> exists v, reg l offset = Some v.
Proof.
  intros H. apply lookup_lt_is_Some in H. destruct H as [x Hx].
  exists (byte_to_int x). unfold reg. now rewrite Hx.
Qed.

(** X9: on a usable store whose register space covers the RPM registers
    and whose direct RPM reads give nothing plausible, the speeds reported
    after [set_custom_fans(c, g)] are the estimates [c * 55] and
    [g * 55]. *)
Theorem set_custom_fans_estimated_rpm
    (cpu_percent gpu_percent : Z) (m : Machine) :
  0 <= cpu_percent <= 100 -> 0 <= gpu_percent <= 100 -> usable m ->
  (Z.to_nat EC_GPU_FAN_RPM_HI < length (ec_space (world m)))%nat ->
  direct_of (ec_space (world m)) EC_CPU_FAN_RPM_LO EC_CPU_FAN_RPM_HI = None ->
  direct_of (ec_space (world m)) EC_GPU_FAN_RPM_LO EC_GPU_FAN_RPM_HI = None ->
  exists m1 info m2,
    set_custom_fans cpu_percent gpu_percent m = (Returns true, m1) /\
    get_fan_info m1 = (Returns info, m2) /\
    cpu_rpm info = Some (cpu_percent * 55) /\
    gpu_rpm info = Some (gpu_percent * 55).
Proof.
  intros Hc Hg Hu Hlen Hdc Hdg.
  destruct (set_custom_fans_usable cpu_percent gpu_percent m Hc Hg Hu)
    as (bc & bg & m1 & Hbc & Hbg & Hset & Hu1 & Hs1).
  destruct (get_fan_info_usable m1 Hu1) as (m2 & Hget & _ & _).
  exists m1. eexists. exists m2.
  split; [exact Hset|]. split; [exact Hget|].
  set (l := ec_space (world m)) in *.
  destruct (reg_in_space l EC_CPU_FAN_RPM_LO ltac:(cbv in Hlen |- *; lia))
    as (a1 & Ha1).
  destruct (reg_in_space l EC_CPU_FAN_RPM_HI ltac:(cbv in Hlen |- *; lia))
    as (a2 & Ha2).
  destruct (reg_in_space l EC_GPU_FAN_RPM_LO ltac:(cbv in Hlen |- *; lia))
    as (a3 & Ha3).
  destruct (reg_in_space l EC_GPU_FAN_RPM_HI ltac:(cbv in Hlen |- *; lia))
    as (a4 & Ha4).
  assert (Hd1 : direct_of (ec_space (world m1)) EC_CPU_FAN_RPM_LO
                  EC_CPU_FAN_RPM_HI = None).
  { rewrite <- Hdc. unfold direct_of. rewrite Ha1, Ha2, Hs1.
    replace (reg _ EC_CPU_FAN_RPM_LO) with (Some a1)
      by (symmetry; reg_lookup; exact Ha1).
    replace (reg _ EC_CPU_FAN_RPM_HI) with (Some a2)
      by (symmetry; reg_lookup; exact Ha2).
    reflexivity. }
  assert (Hd2 : direct_of (ec_space (world m1)) EC_GPU_FAN_RPM_LO
                  EC_GPU_FAN_RPM_HI = None).
  { rewrite <- Hdg. unfold direct_of. rewrite Ha3, Ha4, Hs1.
    replace (reg _ EC_GPU_FAN_RPM_LO) with (Some a3)
      by (symmetry; reg_lookup; exact Ha3).
    replace (reg _ EC_GPU_FAN_RPM_HI) with (Some a4)
      by (symmetry; reg_lookup; exact Ha4).
    reflexivity. }
  assert (Hpc : reg (ec_space (world m1)) EC_CPU_FAN_PCT = Some cpu_percent).
  { rewrite Hs1, <- Hbc. reg_lookup. }
  assert (Hpg : reg (ec_space (world m1)) EC_GPU_FAN_PCT = Some gpu_percent).
  { rewrite Hs1, <- Hbg. reg_lookup. }
  unfold snapshot_of. cbn [cpu_rpm gpu_rpm].
  rewrite Hd1, Hd2, Hpc, Hpg. split; reflexivity.
Qed.

(** ** The order of the writes *)

Lemma _write_ec_settled (p : Path) (offset value : Z) (m : Machine) :
  settled p m -> 0 <= value <= 255 ->
  exists ok m',
    _write_ec offset value m = (Returns ok, m') /\
    settled p m' /\
    trace m' = trace m ++ [EvExists p; EvExists p; EvOpenWrite p offset value].
Proof.
  intros [Hp Hpr] Hv. destruct (bytes1_in_range value Hv) as (b & Hb & _).
  destruct m as [[q u] [] tr]. unfold settled. py_unfold. subst q.
  rewrite Hb. destruct p; py_unfold; rewrite Hpr;
    py_cases; do 2 eexists; (split; [reflexivity|]); cbn;
    rewrite <- ?app_assoc; auto.
Qed.

Lemma _read_ec_settled (p : Path) (offset : Z) (m : Machine) :
  settled p m ->
  exists r m',
    _read_ec offset m = (Returns r, m') /\
    settled p m' /\
    trace m' = trace m ++ [EvExists p; EvOpenRead p offset].
Proof.
  intros [Hp Hpr].
  destruct m as [[q u] [] tr]. unfold settled. py_unfold. subst q.
  destruct p; py_unfold; rewrite Hpr;
    py_cases; do 2 eexists; (split; [reflexivity|]); cbn;
    rewrite <- ?app_assoc; auto.
Qed.

Lemma _write_ec_true_settled (offset value : Z) (m : Machine) m' :
  _write_ec offset value m = (Returns true, m') ->
  exists p evs,
    settled p m' /\
    trace m' = trace m ++ evs /\
    write_attempts evs = [(p, offset, value)].
Proof.
  destruct m as [[q u] [] tr]. unfold settled. py_unfold.
  py_cases; intros H; inversion H; subst; cbn;
    rewrite <- ?app_assoc; cbn [app];
    eexists; eexists; (split; [split; reflexivity|]);
    (split; reflexivity).
Qed.

(** X10: when [set_custom_fans] returns [True], the writes it attempted
    were, in this order and all through one node: the enable code 0x11 to
    0x03, the custom code 0x30 to the GPU mode register, the custom code
    0x0c to the CPU mode register, the CPU percent, the GPU percent; each
    is attempted whether or not the one before went through. *)
Theorem set_custom_fans_write_order
    (cpu_percent gpu_percent : Z) (m : Machine) m' :
  set_custom_fans cpu_percent gpu_percent m = (Returns true, m') ->
  exists p evs,
    trace m' = trace m ++ evs /\
    write_attempts evs
      = [(p, 0x03, 0x11); (p, 0x21, 0x30); (p, 0x22, 0x0C);
         (p, 0x37, cpu_percent); (p, 0x3A, gpu_percent)].
Proof.
  intros Hset.
  destruct (set_custom_fans_cases cpu_percent gpu_percent) as [[Hc Hg]|Hout];
    [|rewrite Hout in Hset; discriminate].
  destruct (set_custom_fans_run cpu_percent gpu_percent m Hc Hg)
    as (ok & m0 & H0 & Hrun).
  destruct ok; [|rewrite Hrun in Hset; discriminate].
  destruct Hrun as (w1 & ma & w2 & mb & w3 & mc & w4 & m1
                    & H1 & H2 & H3 & H4 & Hr).
  rewrite Hr in Hset. inversion Hset; subst m1. clear Hset.
  destruct (_write_ec_true_settled _ _ _ _ H0) as (p & evs & Hp0 & Ht0 & Hw0).
  destruct (_write_ec_settled p EC_GPU_FAN_MODE 0x30 m0 Hp0 ltac:(lia))
    as (? & ? & E1 & Hpa & Hta).
  rewrite H1 in E1. injection E1 as <- <-.
  destruct (_write_ec_settled p EC_CPU_FAN_MODE 0x0C ma Hpa ltac:(lia))
    as (? & ? & E2 & Hpb & Htb).
  rewrite H2 in E2. injection E2 as <- <-.
  destruct (_write_ec_settled p EC_CPU_FAN_PCT cpu_percent mb Hpb ltac:(lia))
    as (? & ? & E3 & Hpc & Htc).
  rewrite H3 in E3. injection E3 as <- <-.
  destruct (_write_ec_settled p EC_GPU_FAN_PCT gpu_percent mc Hpc ltac:(lia))
    as (? & ? & E4 & Hpd & Htd).
  rewrite H4 in E4. injection E4 as <- <-.
  exists p. eexists. split.
  - rewrite Htd, Htc, Htb, Hta, Ht0, <- !app_assoc. reflexivity.
  - rewrite !write_attempts_app, Hw0. reflexivity.
Qed.

(** X11: when [set_cooler_boost_individual] returns [True], the writes it
    attempted were, in this order and all through one node: the enable
    code 0x11 to 0x03, the CPU mode code, the GPU mode code. *)
Theorem set_cooler_boost_individual_write_order
    (cpu_max gpu_max : bool) (m : Machine) m' :
  set_cooler_boost_individual cpu_max gpu_max m = (Returns true, m') ->
  exists p evs,
    trace m' = trace m ++ evs /\
    write_attempts evs
      = [(p, 0x03, 0x11);
         (p, 0x22, if cpu_max then 0x08 else 0x04);
         (p, 0x21, if gpu_max then 0x20 else 0x10)].
Proof.
  intros Hset.
  destruct (set_cooler_boost_individual_run cpu_max gpu_max m)
    as (ok & m0 & H0 & Hrun).
  destruct ok; [|rewrite Hrun in Hset; discriminate].
  destruct Hrun as (cm & ma & gm & mb & w1 & mc & w2 & m1
                    & Ha & Hb & Hc & Hd & Hr).
  rewrite Hr in Hset. inversion Hset; subst m1. clear Hset.
  destruct (_write_ec_true_settled _ _ _ _ H0) as (p & evs & Hp0 & Ht0 & Hw0).
  destruct (_read_ec_settled p EC_CPU_FAN_MODE m0 Hp0) as (? & ? & E1 & Hpa & Hta).
  rewrite Ha in E1. injection E1 as <- <-.
  destruct (_read_ec_settled p EC_GPU_FAN_MODE ma Hpa) as (? & ? & E2 & Hpb & Htb).
  rewrite Hb in E2. injection E2 as <- <-.
  destruct (_write_ec_settled p EC_CPU_FAN_MODE (if cpu_max then 0x08 else 0x04)
              mb Hpb ltac:(destruct cpu_max; lia)) as (? & ? & E3 & Hpc & Htc).
  rewrite Hc in E3. injection E3 as <- <-.
  destruct (_write_ec_settled p EC_GPU_FAN_MODE (if gpu_max then 0x20 else 0x10)
              mc Hpc ltac:(destruct gpu_max; lia)) as (? & ? & E4 & Hpd & Htd).
  rewrite Hd in E4. injection E4 as <- <-.
  exists p. eexists. split.
  - rewrite Htd, Htc, Htb, Hta, Ht0, <- !app_assoc. reflexivity.
  - rewrite !write_attempts_app, Hw0. reflexivity.
Qed.

(** ** Availability and the handle *)

(** X12: the verdict of [is_available] is [True] exactly when the process
    is root and, after the [modprobe] run, one of the two nodes exists;
    the exit status of [modprobe] plays no part.  With [True] the message
    is ["OK"] and the handle names a node that exists, the debugfs node
    whenever that one exists; with [False] the handle is as it was.  No
    register is accessed either way. *)
Theorem is_available_verdict (m : Machine) :
  exists ok msg m',
    is_available m = (Returns (ok, msg), m') /\
    ok = (euid (world m) =? 0)
         && (sys_present (world m) || module_loads (world m)
             || acpi_present (world m)) /\
    ec_space (world m') = ec_space (world m) /\
    io_faults (world m') = io_faults (world m) /\
    if ok then
      msg = "OK"%string /\
      settled (if sys_present (world m') then EC_SYS_PATH else EC_ACPI_PATH) m'
    else
      self m' = self m.
Proof.
  destruct m as [[q u] [] tr].
  unfold is_available, _ensure_ec_sys, run_modprobe, geteuid, settled,
    module_loads.
  py_unfold.
  destruct (euid0 =? 0); cbn [negb andb]; [|do 3 eexists; auto 6].
  py_cases; do 3 eexists; (split; [reflexivity|]); cbn;
    rewrite ?orb_true_r; auto 8.
Qed.

(** X13: after [is_available] has returned [True], whatever handle was
    cached before, the store is usable as long as no I/O error is
    scheduled: the handle names an existing node again. *)
Theorem is_available_makes_usable (m : Machine) msg m' :
  is_available m = (Returns (true, msg), m') ->
  io_faults (world m) = [] ->
  usable m'.
Proof.
  destruct m as [[q u] [] tr].
  unfold is_available, _ensure_ec_sys, run_modprobe, geteuid, usable.
  py_unfold. intros H Hf. subst.
  destruct (euid0 =? 0); cbn [negb] in H; [|discriminate].
  revert H. py_cases; intros H; inversion H; subst; cbn; auto.
Qed.















(** ** The value of the direct RPM read *)

Lemma lor_shiftl_8 (h l : Z) :
  0 <= l <= 255 -> Z.lor (Z.shiftl h 8) l = 256 * h + l.
Proof.
  intros Hl.
  assert (Hland : Z.land (Z.shiftl h 8) l = 0).
  { apply Z.bits_inj'. intros n Hn.
    rewrite Z.land_spec, Z.bits_0.
    destruct (Z.lt_ge_cases n 8) as [Hlt|Hge].
    - rewrite Z.shiftl_spec_low by assumption. reflexivity.
    - replace (Z.testbit l n) with false; [apply andb_false_r|].
      symmetry. destruct (Z.eq_dec l 0) as [->|Hne]; [apply Z.bits_0|].
      apply Z.bits_above_log2; [lia|].
      apply Z.lt_le_trans with 8; [|assumption].
      apply Z.log2_lt_pow2; lia. }
  pose proof (Z.add_lor_land (Z.shiftl h 8) l) as H.
  rewrite Hland, Z.shiftl_mul_pow2 in H by lia.
  rewrite Z.shiftl_mul_pow2 by lia. lia.
Qed.

(** X15: when both RPM bytes are read, the direct read returns the
    little-endian 16-bit value [256 * hi + lo] if that lies in 1..65000,
    and nothing otherwise. *)
Theorem direct_rpm_is_little_endian
    (lo_reg hi_reg : Z) (m : Machine) lo m1 hi m2 :
  _read_ec lo_reg m = (Returns (Some lo), m1) ->
  _read_ec hi_reg m1 = (Returns (Some hi), m2) ->
  _read_fan_rpm_ec lo_reg (Some hi_reg) m
    = (Returns (if decide (0 < 256 * hi + lo <= 65000)
                then Some (256 * hi + lo) else None), m2).
Proof.
  intros Hlo Hhi. unfold _read_fan_rpm_ec.
  run Hlo. rewrite (bind_returns _ _ _ _ _ (bind_returns _ _ _ _ _ Hhi)).
  apply _read_ec_range in Hlo. apply _read_ec_range in Hhi.
  unfold ret. rewrite lor_shiftl_8 by assumption.
  destruct (Z.eqb_spec (256 * hi + lo) 0),
    (Z.gtb_spec (256 * hi + lo) 65000); cbn [orb];
    case_decide; (reflexivity || lia).
Qed.

(** X16: with no high register configured, or with the high byte
    unreadable, the direct read returns the low byte itself unless it is
    0; the cut at 65000 never applies to it. *)
Theorem direct_rpm_low_byte_only (lo_reg hi_reg : Z) (m : Machine) lo m1 m2 :
  _read_ec lo_reg m = (Returns (Some lo), m1) ->
  _read_ec hi_reg m1 = (Returns None, m2) ->
  _read_fan_rpm_ec lo_reg None m
    = (Returns (if lo =? 0 then None else Some lo), m1) /\
  _read_fan_rpm_ec lo_reg (Some hi_reg) m
    = (Returns (if lo =? 0 then None else Some lo), m2).
Proof.
  intros Hlo Hhi.
  assert (Hcut : (lo >? 65000) = false).
  { apply _read_ec_range in Hlo. rewrite Z.gtb_ltb. apply Z.ltb_ge. lia. }
  unfold _read_fan_rpm_ec. split; run Hlo.
  - unfold bind, ret. rewrite Hcut, orb_false_r. destruct (lo =? 0); auto.
  - rewrite (bind_returns _ _ _ _ _ (bind_returns _ _ _ _ _ Hhi)).
    unfold ret. rewrite Hcut, orb_false_r. destruct (lo =? 0); auto.
Qed.

(** ** The front end *)

Ltac gui_unfold :=
  cbv [handler _toggle_cpu_boost _toggle_gpu_boost _set_auto _apply_fans
       _check_availability _update_boost_buttons boost_badge
       gbind gret on_boost tk_call get_app set_cpu_boost set_gpu_boost
       Slider_get boost _cpu_boost _gpu_boost cpu_slider gpu_slider tk
       set_cooler_boost] in *.







Lemma set_cooler_boost_individual_usable_regs
    (cpu_max gpu_max : bool) (m : Machine) :
  usable m ->
  exists m1,
    set_cooler_boost_individual cpu_max gpu_max m = (Returns true, m1) /\
    usable m1 /\
    reg (ec_space (world m1)) EC_CPU_FAN_MODE
      = Some (if cpu_max then 0x08 else 0x04) /\
    reg (ec_space (world m1)) EC_GPU_FAN_MODE
      = Some (if gpu_max then 0x20 else 0x10).
Proof.
  intros Hu.
  destruct (set_cooler_boost_individual_usable cpu_max gpu_max m Hu)
    as (m1 & Hset & Hu1 & Hs1).
  exists m1. repeat (split; [assumption|]). rewrite Hs1. split.
  - replace (if cpu_max then 8 else 4)
      with (byte_to_int (if cpu_max then x08 else x04))
      by (destruct cpu_max; reflexivity).
    reg_lookup.
  - replace (if gpu_max then 32 else 16)
      with (byte_to_int (if gpu_max then x20 else x10))
      by (destruct gpu_max; reflexivity).
    reg_lookup.
Qed.

Lemma set_custom_fans_usable_regs (cpu_percent gpu_percent : Z) (m : Machine) :
  0 <= cpu_percent <= 100 -> 0 <= gpu_percent <= 100 -> usable m ->
  exists m1,
    set_custom_fans cpu_percent gpu_percent m = (Returns true, m1) /\
    usable m1 /\
    reg (ec_space (world m1)) EC_CPU_FAN_MODE = Some 0x0C /\
    reg (ec_space (world m1)) EC_GPU_FAN_MODE = Some 0x30.
Proof.
  intros Hc Hg Hu.
  destruct (set_custom_fans_usable cpu_percent gpu_percent m Hc Hg Hu)
    as (bc & bg & m1 & _ & _ & Hset & Hu1 & Hs1).
  exists m1. repeat (split; [assumption|]). rewrite Hs1. split.
  - change 12 with (byte_to_int x0c). reg_lookup.
  - change 48 with (byte_to_int x30). reg_lookup.
Qed.

Lemma is_available_usable (m : Machine) :
  usable m ->
  exists ok msg m',
    is_available m = (Returns (ok, msg), m') /\
    ok = (euid (world m) =? 0) /\
    usable m' /\
    ec_space (world m') = ec_space (world m).
Proof.
  destruct m as [[q u] [] tr].
  unfold is_available, _ensure_ec_sys, run_modprobe, geteuid, usable.
  py_unfold. intros [Hf Hp]. subst.
  destruct (euid0 =? 0); cbn [negb]; [|do 3 eexists; auto 6].
  destruct q as [[|]|]; py_unfold; rewrite ?Hp;
    py_cases; try discriminate;
    do 3 eexists; (split; [reflexivity|]); cbn; auto 6;
    exfalso; destruct sys_present0, acpi_present0; cbn in *; discriminate.
Qed.

Lemma flag_of_register (r : option Z) (code : Z) :
  default false ((fun c => c =? code) <$> r) = true <-> r = Some code.
Proof.
  destruct r as [c|]; cbn; [|split; discriminate].
  destruct (Z.eqb_spec c code); split; intros H;
    congruence || (inversion H; congruence).
Qed.

Lemma _check_availability_ok (app : NitroBoostApp) msg m1 :
  is_available (boost app) = (Returns (true, msg), m1) ->
  usable m1 ->
  exists app',
    _check_availability app = (Returns tt, app') /\
    usable (boost app') /\ in_sync app'.
Proof.
  destruct app as [m c g cs gs calls0]. unfold in_sync. cbn [boost].
  intros H Hu1. gui_unfold. rewrite H.
  destruct (get_fan_info_usable m1 Hu1) as (m2 & H2 & Hu2 & Hs2).
  rewrite H2.
  pose proof (flag_of_register
                (reg (ec_space (world m1)) EC_CPU_FAN_MODE) 0x08) as F1.
  pose proof (flag_of_register
                (reg (ec_space (world m1)) EC_GPU_FAN_MODE) 0x20) as F2.
  unfold snapshot_of. cbn [cpu_cooler_boost gpu_cooler_boost].
  destruct (default false _), (default false _);
    eexists; (split; [reflexivity|]); cbn; rewrite Hs2; auto.
Qed.

Lemma handler_usable (h : Handler) (app : NitroBoostApp) :
  usable (boost app) -> in_sync app ->
  exists app',
    handler h app = (Returns tt, app') /\
    usable (boost app') /\ in_sync app'.
Proof.
  destruct app as [m c g cs gs calls0]. unfold in_sync. cbn.
  intros Hu [Hc Hg]. destruct h; gui_unfold.
  - destruct (set_cooler_boost_individual_usable_regs (negb c) g m Hu)
      as (m1 & H & Hu1 & Hrc & Hrg).
    rewrite H.
    destruct c, g; cbn in Hrc, Hrg |- *; (eexists; split; [reflexivity|]);
      cbn; rewrite Hrc, Hrg; (split; [assumption|]);
      split; split; congruence.
  - destruct (set_cooler_boost_individual_usable_regs c (negb g) m Hu)
      as (m1 & H & Hu1 & Hrc & Hrg).
    rewrite H.
    destruct c, g; cbn in Hrc, Hrg |- *; (eexists; split; [reflexivity|]);
      cbn; rewrite Hrc, Hrg; (split; [assumption|]);
      split; split; congruence.
  - destruct (set_cooler_boost_individual_usable_regs false false m Hu)
      as (m1 & H & Hu1 & Hrc & Hrg).
    rewrite H. eexists. split; [reflexivity|]. cbn.
    rewrite Hrc, Hrg. split; [assumption|]. split; split; congruence.
  - destruct (set_custom_fans_cases (_value cs) (_value gs))
      as [[Hcs Hgs]|Hout].
    + destruct (set_custom_fans_usable_regs _ _ m Hcs Hgs Hu)
        as (m1 & H & Hu1 & Hrc & Hrg).
      rewrite H. eexists. split; [reflexivity|]. cbn.
      rewrite Hrc, Hrg. split; [assumption|]. split; split; congruence.
    + rewrite Hout. eexists. split; [reflexivity|]. cbn. auto.
  - destruct (is_available_usable m Hu) as (ok & msg & m1 & H & _ & Hu1 & Hs1).
    destruct ok.
    + apply (_check_availability_ok (mkApp m c g cs gs calls0) msg m1 H Hu1).
    + rewrite H. eexists. split; [reflexivity|]. cbn. rewrite Hs1. auto.
Qed.

Lemma gbind_returns {A B} (c : Gui A) (k : A -> Gui B) app a app' :
  c app = (Returns a, app') -> gbind c k app = k a app'.
Proof. intros H. unfold gbind. now rewrite H. Qed.

(** X18: on a usable store, whatever buttons are pressed and in whatever
    order, and whatever the sliders hold, the two boost flags of the
    front end keep saying what the mode registers say: a flag is set
    exactly when its domain's register holds the max code. *)
Theorem clicks_keep_flags_in_sync (hs : list Handler) (app : NitroBoostApp) :
  usable (boost app) -> in_sync app ->
  exists app',
    clicks hs app = (Returns tt, app') /\
    usable (boost app') /\ in_sync app'.
Proof.
  revert app. induction hs as [|h hs IH]; intros app Hu Hsync.
  - exists app. auto.
  - destruct (handler_usable h app Hu Hsync) as (app1 & H1 & Hu1 & Hs1).
    destruct (IH app1 Hu1 Hs1) as (app' & H' & Hu' & Hs').
    exists app'. cbn [clicks]. rewrite (gbind_returns _ _ _ _ _ H1). auto.
Qed.

(** X19: on a usable store and as root, the availability check made when
    the window opens brings the two boost flags in line with the mode
    registers, whatever they were. *)
Theorem check_availability_syncs_flags (app : NitroBoostApp) :
  usable (boost app) -> euid (world (boost app)) = 0 ->
  exists app',
    _check_availability app = (Returns tt, app') /\
    usable (boost app') /\ in_sync app'.
Proof.
  intros Hu Hroot.
  destruct (is_available_usable (boost app) Hu)
    as (ok & msg & m1 & H & Hok & Hu1 & Hs1).
  rewrite Hroot in Hok. cbn in Hok. subst ok.
  exact (_check_availability_ok app msg m1 H Hu1).
Qed.

(** ** Concrete runs of the further properties *)

Lemma write_ec_then_read_ec_witness :
  _write_ec EC_CPU_FAN_PCT 50 fresh_machine
    = (Returns true, after (_write_ec EC_CPU_FAN_PCT 50) fresh_machine) /\
  _read_ec EC_CPU_FAN_PCT (after (_write_ec EC_CPU_FAN_PCT 50) fresh_machine)
    = (Returns (Some 50),
       after (_read_ec EC_CPU_FAN_PCT)
         (after (_write_ec EC_CPU_FAN_PCT 50) fresh_machine)) /\
  50 = 50.
Proof.
  split; [vm_compute; reflexivity|]. split; [vm_compute; reflexivity|].
  apply (write_ec_then_read_ec EC_CPU_FAN_PCT 50 fresh_machine
           (after (_write_ec EC_CPU_FAN_PCT 50) fresh_machine) 50
           (after (_read_ec EC_CPU_FAN_PCT)
              (after (_write_ec EC_CPU_FAN_PCT 50) fresh_machine)));
    vm_compute; reflexivity.
Defined.

Lemma set_cooler_boost_individual_get_fan_info_witness :
  usable fresh_machine /\
  exists m1 info m2,
    set_cooler_boost_individual true false fresh_machine = (Returns true, m1) /\
    get_fan_info m1 = (Returns info, m2) /\
    cpu_cooler_boost info = Some true /\
    gpu_cooler_boost info = Some false /\
    cooler_boost info = Some (true && false) /\
    mode info = (if true && false then "max"
                 else if negb true && negb false then "auto"
                 else "unknown")%string.
Proof.
  split; [split; reflexivity|].
  apply (set_cooler_boost_individual_get_fan_info true false fresh_machine).
  split; reflexivity.
Defined.

Lemma get_fan_info_consistent_witness :
  usable fresh_machine /\
  exists info m',
    get_fan_info fresh_machine = (Returns info, m') /\
    cooler_boost info
      = match cpu_cooler_boost info, gpu_cooler_boost info with
        | Some c, Some g => Some (c && g)
        | _, _ => None
        end /\
    (cooler_boost info = Some true <-> mode info = "max"%string).
Proof.
  split; [split; reflexivity|].
  apply (get_fan_info_consistent fresh_machine). split; reflexivity.
Defined.

Lemma setters_idempotent_witness :
  0 <= 40 <= 100 /\ 0 <= 60 <= 100 /\ usable fresh_machine /\
  (exists m1 m2,
     set_cooler_boost_individual true true fresh_machine = (Returns true, m1) /\
     set_cooler_boost_individual true true m1 = (Returns true, m2) /\
     ec_space (world m2) = ec_space (world m1)) /\
  (exists m1 m2,
     set_custom_fans 40 60 fresh_machine = (Returns true, m1) /\
     set_custom_fans 40 60 m1 = (Returns true, m2) /\
     ec_space (world m2) = ec_space (world m1)).
Proof.
  split; [lia|]. split; [lia|]. split; [split; reflexivity|].
  apply (setters_idempotent true true 40 60 fresh_machine);
    [lia | lia | split; reflexivity].
Defined.

Lemma set_custom_fans_estimated_rpm_witness :
  0 <= 40 <= 100 /\ 0 <= 60 <= 100 /\ usable fresh_machine /\
  (Z.to_nat EC_GPU_FAN_RPM_HI < length (ec_space (world fresh_machine)))%nat /\
  direct_of (ec_space (world fresh_machine))
    EC_CPU_FAN_RPM_LO EC_CPU_FAN_RPM_HI = None /\
  direct_of (ec_space (world fresh_machine))
    EC_GPU_FAN_RPM_LO EC_GPU_FAN_RPM_HI = None /\
  exists m1 info m2,
    set_custom_fans 40 60 fresh_machine = (Returns true, m1) /\
    get_fan_info m1 = (Returns info, m2) /\
    cpu_rpm info = Some (40 * 55) /\
    gpu_rpm info = Some (60 * 55).
Proof.
  split; [lia|]. split; [lia|]. split; [split; reflexivity|].
  split; [cbv; lia|]. split; [reflexivity|]. split; [reflexivity|].
  apply (set_custom_fans_estimated_rpm 40 60 fresh_machine);
    [lia | lia | split; reflexivity | cbv; lia | reflexivity | reflexivity].
Defined.

Lemma set_custom_fans_write_order_witness :
  set_custom_fans 40 60 fresh_machine
    = (Returns true, after (set_custom_fans 40 60) fresh_machine) /\
  exists p evs,
    trace (after (set_custom_fans 40 60) fresh_machine)
      = trace fresh_machine ++ evs /\
    write_attempts evs
      = [(p, 0x03, 0x11); (p, 0x21, 0x30); (p, 0x22, 0x0C);
         (p, 0x37, 40); (p, 0x3A, 60)].
Proof.
  split; [vm_compute; reflexivity|].
  apply (set_custom_fans_write_order 40 60 fresh_machine
           (after (set_custom_fans 40 60) fresh_machine)).
  vm_compute. reflexivity.
Defined.

Lemma set_cooler_boost_individual_write_order_witness :
  set_cooler_boost_individual true false fresh_machine
    = (Returns true,
       after (set_cooler_boost_individual true false) fresh_machine) /\
  exists p evs,
    trace (after (set_cooler_boost_individual true false) fresh_machine)
      = trace fresh_machine ++ evs /\
    write_attempts evs
      = [(p, 0x03, 0x11);
         (p, 0x22, if true then 0x08 else 0x04);
         (p, 0x21, if false then 0x20 else 0x10)].
Proof.
  split; [vm_compute; reflexivity|].
  apply (set_cooler_boost_individual_write_order true false fresh_machine
           (after (set_cooler_boost_individual true false) fresh_machine)).
  vm_compute. reflexivity.
Defined.

Lemma is_available_makes_usable_witness :
  is_available stale_machine
    = (Returns (true, "OK"%string), after is_available stale_machine) /\
  io_faults (world stale_machine) = [] /\
  usable (after is_available stale_machine).
Proof.
  split; [vm_compute; reflexivity|]. split; [reflexivity|].
  apply (is_available_makes_usable stale_machine "OK"
           (after is_available stale_machine));
    [vm_compute; reflexivity | reflexivity].
Defined.

Lemma direct_rpm_is_little_endian_witness :
  _read_ec EC_CPU_FAN_RPM_LO spinning_machine
    = (Returns (Some 176),
       after (_read_ec EC_CPU_FAN_RPM_LO) spinning_machine) /\
  _read_ec EC_CPU_FAN_RPM_HI
    (after (_read_ec EC_CPU_FAN_RPM_LO) spinning_machine)
    = (Returns (Some 4),
       after (_read_ec EC_CPU_FAN_RPM_HI)
         (after (_read_ec EC_CPU_FAN_RPM_LO) spinning_machine)) /\
  _read_fan_rpm_ec EC_CPU_FAN_RPM_LO (Some EC_CPU_FAN_RPM_HI) spinning_machine
    = (Returns (if decide (0 < 256 * 4 + 176 <= 65000)
                then Some (256 * 4 + 176) else None),
       after (_read_ec EC_CPU_FAN_RPM_HI)
         (after (_read_ec EC_CPU_FAN_RPM_LO) spinning_machine)).
Proof.
  split; [vm_compute; reflexivity|]. split; [vm_compute; reflexivity|].
  apply (direct_rpm_is_little_endian EC_CPU_FAN_RPM_LO EC_CPU_FAN_RPM_HI
           spinning_machine 176
           (after (_read_ec EC_CPU_FAN_RPM_LO) spinning_machine) 4
           (after (_read_ec EC_CPU_FAN_RPM_HI)
              (after (_read_ec EC_CPU_FAN_RPM_LO) spinning_machine)));
    vm_compute; reflexivity.
Defined.

Lemma direct_rpm_low_byte_only_witness :
  _read_ec EC_CPU_FAN_RPM_LO short_machine
    = (Returns (Some 42), after (_read_ec EC_CPU_FAN_RPM_LO) short_machine) /\
  _read_ec EC_CPU_FAN_RPM_HI (after (_read_ec EC_CPU_FAN_RPM_LO) short_machine)
    = (Returns None,
       after (_read_ec EC_CPU_FAN_RPM_HI)
         (after (_read_ec EC_CPU_FAN_RPM_LO) short_machine)) /\
  _read_fan_rpm_ec EC_CPU_FAN_RPM_LO None short_machine
    = (Returns (if 42 =? 0 then None else Some 42),
       after (_read_ec EC_CPU_FAN_RPM_LO) short_machine) /\
  _read_fan_rpm_ec EC_CPU_FAN_RPM_LO (Some EC_CPU_FAN_RPM_HI) short_machine
    = (Returns (if 42 =? 0 then None else Some 42),
       after (_read_ec EC_CPU_FAN_RPM_HI)
         (after (_read_ec EC_CPU_FAN_RPM_LO) short_machine)).
Proof.
  split; [vm_compute; reflexivity|]. split; [vm_compute; reflexivity|].
  apply (direct_rpm_low_byte_only EC_CPU_FAN_RPM_LO EC_CPU_FAN_RPM_HI
           short_machine 42
           (after (_read_ec EC_CPU_FAN_RPM_LO) short_machine)
           (after (_read_ec EC_CPU_FAN_RPM_HI)
              (after (_read_ec EC_CPU_FAN_RPM_LO) short_machine)));
    vm_compute; reflexivity.
Defined.

Lemma clicks_keep_flags_in_sync_witness :
  usable (boost fresh_app) /\ in_sync fresh_app /\
  exists app',
    clicks [ToggleCpuBoost; ApplyFans; ToggleGpuBoost] fresh_app
      = (Returns tt, app') /\
    usable (boost app') /\ in_sync app'.
Proof.
  split; [split; reflexivity|].
  split; [split; split; discriminate|].
  apply (clicks_keep_flags_in_sync
           [ToggleCpuBoost; ApplyFans; ToggleGpuBoost] fresh_app).
  - split; reflexivity.
  - split; split; discriminate.
Defined.

Lemma check_availability_syncs_flags_witness :
  usable (boost fresh_app) /\ euid (world (boost fresh_app)) = 0 /\
  exists app',
    _check_availability fresh_app = (Returns tt, app') /\
    usable (boost app') /\ in_sync app'.
Proof.
  split; [split; reflexivity|]. split; [reflexivity|].
  apply (check_availability_syncs_flags fresh_app);
    [split; reflexivity | reflexivity].
Defined.
